(** * pulsar test utilities and task model: a shallow embedding

    Embedded sources:
    - [pulsar/apps/test/utils.py]: [get_test_timeout], [AsyncAssert],
      [ActorTestMixin], [check_server], [dont_run_with_thread];
    - [pulsar/apps/pulsardjp/models.py]: [Task.get_task].

    Python values are modelled with the types the code uses them at:
    strings as [string], integers as [Z], attribute dictionaries that are
    created lazily as [option] fields, the configuration and the task
    store as [gmap]s keyed by strings.  Code that raises is modelled with
    an explicit [outcome]; code that mutates an object threads that
    object through a state-and-exception monad in which the state
    survives a raised exception, as it does in Python. *)

From stdpp Require Import gmap strings list pretty.
From Stdlib Require Import ZArith.

Local Open Scope Z_scope.
Local Open Scope string_scope.

(** ** Python runtime fragments *)

Module Py.

(** The exception classes the embedded code mentions or can observe,
    with single inheritance; [UserClass] stands for any class defined
    by a test author. *)
Inductive pyclass : Type :=
| BaseException
| Exception
| KeyboardInterrupt
| SystemExit
| GeneratorExit
| AssertionError
| AttributeError
| TypeError
| ValueError
| OSError
| ConnectionError
| ConnectionRefusedError
| TimeoutError
| PulsarException
| ImproperlyConfigured
| DoesNotExist
| UserClass (name : string) (base : pyclass).

#[global] Instance pyclass_eq_dec : EqDecision pyclass.
Proof. solve_decision. Defined.

(** Method resolution order: the class followed by its ancestors. *)
Fixpoint mro (c : pyclass) : list pyclass :=
  match c with
  | BaseException => [BaseException]
  | Exception => [Exception; BaseException]
  | KeyboardInterrupt => [KeyboardInterrupt; BaseException]
  | SystemExit => [SystemExit; BaseException]
  | GeneratorExit => [GeneratorExit; BaseException]
  | AssertionError => [AssertionError; Exception; BaseException]
  | AttributeError => [AttributeError; Exception; BaseException]
  | TypeError => [TypeError; Exception; BaseException]
  | ValueError => [ValueError; Exception; BaseException]
  | OSError => [OSError; Exception; BaseException]
  | ConnectionError => [ConnectionError; OSError; Exception; BaseException]
  | ConnectionRefusedError =>
      [ConnectionRefusedError; ConnectionError; OSError; Exception;
       BaseException]
  | TimeoutError => [TimeoutError; OSError; Exception; BaseException]
  | PulsarException => [PulsarException; Exception; BaseException]
  | ImproperlyConfigured =>
      [ImproperlyConfigured; PulsarException; Exception; BaseException]
  | DoesNotExist => [DoesNotExist; Exception; BaseException]
  | UserClass _ base => c :: mro base
  end.

Definition issubclass (c d : pyclass) : bool := bool_decide (d ∈ mro c).

Definition class_name (c : pyclass) : string :=
  match c with
  | BaseException => "BaseException"
  | Exception => "Exception"
  | KeyboardInterrupt => "KeyboardInterrupt"
  | SystemExit => "SystemExit"
  | GeneratorExit => "GeneratorExit"
  | AssertionError => "AssertionError"
  | AttributeError => "AttributeError"
  | TypeError => "TypeError"
  | ValueError => "ValueError"
  | OSError => "OSError"
  | ConnectionError => "ConnectionError"
  | ConnectionRefusedError => "ConnectionRefusedError"
  | TimeoutError => "TimeoutError"
  | PulsarException => "pulsar.PulsarException"
  | ImproperlyConfigured => "pulsar.ImproperlyConfigured"
  | DoesNotExist => "DoesNotExist"
  | UserClass name _ => name
  end.

(** [str(cls)], as the [%s] conversion prints a class. *)
Definition str_class (c : pyclass) : string :=
  "<class '" ++ class_name c ++ "'>".

(** An exception instance: its class and its message. *)
Record exc : Type := mkExc { exc_type : pyclass; exc_msg : string }.

#[global] Instance exc_eq_dec : EqDecision exc.
Proof. solve_decision. Defined.

Definition isinstance (e : exc) (c : pyclass) : bool :=
  issubclass (exc_type e) c.

(** What running a piece of code gives: a value, or a raised exception. *)
Inductive outcome (A : Type) : Type :=
| Returned (a : A)
| Raised (e : exc).
Arguments Returned {A} a.
Arguments Raised {A} e.

(** Truth value of a string, and of an optional string ([None] is
    false, the empty string is false). *)
Definition truthy_str (s : string) : bool :=
  match s with EmptyString => false | String _ _ => true end.

Definition truthy_opt_str (o : option string) : bool :=
  match o with None => false | Some s => truthy_str s end.

(** [needle in hay] on strings: [needle] occurs somewhere in [hay]. *)
Fixpoint str_in (needle hay : string) : bool :=
  String.prefix needle hay
  || match hay with
     | EmptyString => false
     | String _ rest => str_in needle rest
     end.

(** [hay.startswith(needle)]. *)
Definition startswith (hay needle : string) : bool := String.prefix needle hay.

(** Code that reads and writes an object of type [S] and may raise.  A
    raised exception leaves the mutations made so far in place. *)
Definition M (S A : Type) : Type := S -> outcome A * S.

#[global] Instance M_ret {S} : MRet (M S) :=
  fun A (a : A) s => (Returned a, s).

#[global] Instance M_bind {S} : MBind (M S) :=
  fun A B (k : A -> M S B) (m : M S A) s =>
    match m s with
    | (Returned a, s') => k a s'
    | (Raised e, s') => (Raised e, s')
    end.

Definition raise {S A} (e : exc) : M S A := fun s => (Raised e, s).

Definition get {S} : M S S := fun s => (Returned s, s).

Definition put {S} (s : S) : M S unit := fun _ => (Returned tt, s).

(** An external call whose result is already known as an [outcome]. *)
Definition lift {S A} (o : outcome A) : M S A := fun s => (o, s).

End Py.

Import Py.

(** ** [pulsar/apps/test/utils.py] *)

Module TestUtils.

(** *** Test objects and the execution-control annotations *)

(** A test class or test function, with the attributes the module reads
    or writes on it; an attribute that was never set is [None].
    [skip_wrapper] is [Some reason] when the function has been replaced
    by [unittest]'s wrapper that raises [SkipTest(reason)]. *)
Record TestObject : Type := mkTestObject {
  qualname : string;
  is_class : bool;
  skip_wrapper : option string;
  _sequential_execution : option bool;
  _test_timeout : option Z;
  __unittest_skip__ : option bool;
  __unittest_skip_why__ : option string;
  __unittest_expecting_failure__ : option bool
}.

#[global] Instance TestObject_eq_dec : EqDecision TestObject.
Proof. solve_decision. Defined.

(** [getattr(o, name, default)]: a read, the object is left as it is. *)
Definition getattr {O A} (attr : O -> option A) (dflt : A) : M O A :=
  fun o => (Returned (default dflt (attr o)), o).

Definition skip_test (o : TestObject) : bool :=
  default false (__unittest_skip__ o).

Definition skip_reason (o : TestObject) : string :=
  default "" (__unittest_skip_why__ o).

Definition expecting_failure (o : TestObject) : bool :=
  default false (__unittest_expecting_failure__ o).

Definition sequential (cls : TestObject) : TestObject :=
  {| qualname := qualname cls;
     is_class := is_class cls;
     skip_wrapper := skip_wrapper cls;
     _sequential_execution := Some true;
     _test_timeout := _test_timeout cls;
     __unittest_skip__ := __unittest_skip__ cls;
     __unittest_skip_why__ := __unittest_skip_why__ cls;
     __unittest_expecting_failure__ := __unittest_expecting_failure__ cls |}.

(** [test_timeout(timeout)(f)]: [__init__] followed by [__call__]. *)
Definition test_timeout (timeout : Z) (f : TestObject) : TestObject :=
  {| qualname := qualname f;
     is_class := is_class f;
     skip_wrapper := skip_wrapper f;
     _sequential_execution := _sequential_execution f;
     _test_timeout := Some timeout;
     __unittest_skip__ := __unittest_skip__ f;
     __unittest_skip_why__ := __unittest_skip_why__ f;
     __unittest_expecting_failure__ := __unittest_expecting_failure__ f |}.

(** The builtin [max(a, b)] on integers: the first argument wins a tie. *)
Definition py_max (a b : Z) : Z := if (a <? b)%Z then b else a.

(** [get_test_timeout(o, timeout)]; [o] is the object the code runs on. *)
Definition get_test_timeout (timeout : Z) : M TestObject Z :=
  val ← getattr _test_timeout 0%Z;
  mret (py_max val timeout).

(** *** The actor runtime, as the module consumes it *)

(** [actor.cfg]: the [concurrency] setting and the string-keyed
    settings behind [cfg.get]. *)
Record Config : Type := mkConfig {
  cfg_concurrency : string;
  settings : gmap string string
}.

Definition cfg_get (c : Config) (key : string) : option string :=
  settings c !! key.

Record Actor : Type := mkActor { actor_cfg : Config }.

(** The future [pulsar.spawn] returns: the identifier is there at once,
    [isinstance(ad, Future)] is [ad_is_Future], and waiting for it gives
    the proxy or raises. *)
Record SpawnFuture (P : Type) : Type := mkSpawnFuture {
  ad_aid : string;
  ad_is_Future : bool;
  ad_result : outcome P
}.
Arguments mkSpawnFuture {P} _ _ _.
Arguments ad_aid {P} _.
Arguments ad_is_Future {P} _.
Arguments ad_result {P} _.

(** Actor proxies, [pulsar.spawn] and [pulsar.send] belong to the
    runtime, which is not part of the embedded sources: the proxy type,
    the three attributes the mixin reads, the proxies' [==], [spawn]
    and [send] (which gives a pending request, or raises) are its
    interface. *)
Class ActorRuntime : Type := {
  ActorProxy : Type;
  Request : Type;
  aid : ActorProxy -> string;
  proxy : ActorProxy -> ActorProxy;
  cfg : ActorProxy -> option Config;
  proxy_eqb : ActorProxy -> ActorProxy -> bool;
  spawn : string -> list (string * string) -> outcome (SpawnFuture ActorProxy);
  send : ActorProxy -> string -> outcome Request
}.

(** *** AsyncAssert *)

(** The part of a [unittest.TestCase] instance the descriptor uses. *)
Record TestCase : Type := mkTestCase {
  case_name : string;
  failureException : pyclass
}.

Record AsyncAssert : Type := mkAsyncAssert { test : TestCase }.

(** Objects are identified by their address in the heap. *)
Abbreviation heap := (list AsyncAssert).

(** [AsyncAssert(test)]: allocate a new object and run [__init__]. *)
Definition AsyncAssert_new (t : TestCase) : M heap nat :=
  fun h => (Returned (List.length h), (h ++ [mkAsyncAssert t])%list).

(** [AsyncAssert.__get__(self, instance)]; [self] is the address of the
    descriptor stored on the class. *)
Definition AsyncAssert_get (self : nat) (instance : option TestCase)
  : M heap nat :=
  match instance with
  | Some i => AsyncAssert_new i
  | None => mret self
  end.

(** What [callable] on its arguments gives: it raises, or it returns an
    object; [yield from] then drives an awaitable to its result or its
    exception, and raises [TypeError] on an object that cannot be
    iterated. *)
Inductive call_result : Type :=
| Awaitable (o : outcome unit)
| NotIterable.

Record Callable : Type := mkCallable {
  callable_str : string;
  call : outcome call_result
}.

Definition yield_from (r : call_result) : outcome unit :=
  match r with
  | Awaitable o => o
  | NotIterable => Raised (mkExc TypeError "object is not iterable")
  end.

Definition call_and_yield_from (c : Callable) : outcome unit :=
  match call c with
  | Returned r => yield_from r
  | Raised e => Raised e
  end.

(** The callable itself raises [e]: when it is called, or while the
    awaitable it returned is driven. *)
Definition callable_raises (c : Callable) (e : exc) : Prop :=
  call c = Raised e \/ call c = Returned (Awaitable (Raised e)).

(** ['%s not raised by %s' % (error, callable)] *)
Definition not_raised_msg (error : pyclass) (c : Callable) : string :=
  str_class error ++ " not raised by " ++ callable_str c.

(** [AsyncAssert.assertRaises(self, error, callable, ...)],
    run to completion. *)
Definition assertRaises (self : AsyncAssert) (error : pyclass)
    (c : Callable) : outcome unit :=
  match call_and_yield_from c with
  | Raised e =>
      if isinstance e error then Returned tt
      else if isinstance e Exception then
        Raised (mkExc (failureException (test self)) (not_raised_msg error c))
      else Raised e
  | Returned _ =>
      Raised (mkExc (failureException (test self)) (not_raised_msg error c))
  end.

(** *** ActorTestMixin *)

Section Mixin.
Context `{RT : ActorRuntime}.

(** A test instance deriving from the mixin.  [_spawned] is the list
    behind [all_spawned]; it does not exist before the first use. *)
Record TestInstance : Type := mkTestInstance {
  self_case : TestCase;
  concurrency : string;
  _spawned : option (list ActorProxy)
}.

Definition set_spawned (l : list ActorProxy) (self : TestInstance)
  : TestInstance :=
  {| self_case := self_case self;
     concurrency := concurrency self;
     _spawned := Some l |}.

(** The tracked collection, as an observer reads it. *)
Definition tracked (self : TestInstance) : list ActorProxy :=
  default [] (_spawned self).

(** The assertion methods inherited from [unittest.TestCase]. *)
Definition fail {A} (msg : string) : M TestInstance A :=
  fun self => (Raised (mkExc (failureException (self_case self)) msg), self).

Definition assertTrue (expr : bool) : M TestInstance unit :=
  if expr then mret tt else fail "expr is not true".

Definition assertIsInstance (is_instance : bool) : M TestInstance unit :=
  if is_instance then mret tt else fail "object is not an instance of cls".

Definition assertEqual {A} (eqb : A -> A -> bool) (first second : A)
  : M TestInstance unit :=
  if eqb first second then mret tt else fail "first != second".

(** The [all_spawned] property. *)
Definition all_spawned : M TestInstance (list ActorProxy) :=
  fun self =>
    match _spawned self with
    | None => (Returned [], set_spawned [] self)
    | Some l => (Returned l, self)
    end.

(** [.append(p)] on the list [all_spawned] returned: that list is the
    object stored in [_spawned], so the instance sees the new element. *)
Definition spawned_append (p : ActorProxy) : M TestInstance unit :=
  fun self => (Returned tt, set_spawned (tracked self ++ [p])%list self).

(** [a or b] on an optional string argument. *)
Definition py_or (a : option string) (b : string) : string :=
  match a with
  | Some s => if truthy_str s then s else b
  | None => b
  end.

Definition truthy_cfg (c : option Config) : bool :=
  match c with Some _ => true | None => false end.

Definition spawn_actor (concurrency_arg : option string)
    (kwargs : list (string * string)) : M TestInstance ActorProxy :=
  self ← get;
  let concurrency_ := py_or concurrency_arg (concurrency self) in
  ad ← lift (spawn concurrency_ kwargs);
  assertTrue (truthy_str (ad_aid ad));;
  assertIsInstance (ad_is_Future ad);;
  proxy_ ← lift (ad_result ad);
  all_spawned;;
  spawned_append proxy_;;
  assertEqual String.eqb (aid proxy_) (ad_aid ad);;
  assertEqual proxy_eqb (proxy proxy_) proxy_;;
  assertTrue (truthy_cfg (cfg proxy_));;
  mret proxy_.

(** [multi_async(requests)]: the combined request, which completes when
    all of its members have. *)
Inductive MultiFuture : Type :=
| multi_async (requests : list Request).

(** [[send(a, 'stop') for a in all]]: the requests are issued in the
    order of the list, and the first [send] that raises ends the
    comprehension. *)
Fixpoint send_stop (all : list ActorProxy) : outcome (list Request) :=
  match all with
  | [] => Returned []
  | a :: rest =>
      match send a "stop" with
      | Raised e => Raised e
      | Returned r =>
          match send_stop rest with
          | Raised e => Raised e
          | Returned rs => Returned (r :: rs)
          end
      end
  end.

Definition stop_actors (args : list ActorProxy) : M TestInstance MultiFuture :=
  all ← match args with
        | [] => all_spawned
        | _ :: _ => mret args
        end;
  requests ← lift (send_stop all);
  mret (multi_async requests).

Definition tearDown : M TestInstance MultiFuture :=
  stop_actors [].

End Mixin.

(** *** check_server *)

(** The process-wide collaborators of [check_server]: the current
    actor, the store factory and the liveness request run on the
    store's own loop.  [new_event_loop()] is evaluated as an argument of
    [create_store] inside the same [try], so an exception from it is an
    exception of [create_store] here. *)
Record Env (Store : Type) : Type := mkEnv {
  get_actor : option Actor;
  create_store : string -> outcome Store;
  run_ping : Store -> outcome unit
}.
Arguments mkEnv {Store} _ _ _.
Arguments get_actor {Store} _.
Arguments create_store {Store} _ _.
Arguments run_ping {Store} _ _.

(** The calls made to the collaborators, in order: the address the
    store factory is called with, and the store the liveness request is
    run on. *)
Inductive event (Store : Type) : Type :=
| EvCreateStore (addr : string)
| EvPing (sync_store : Store).
Arguments EvCreateStore {Store} addr.
Arguments EvPing {Store} sync_store.

Definition emit {Store} (e : event Store) : M (list (event Store)) unit :=
  fun log => (Returned tt, (log ++ [e])%list).

(** The two lines that add the scheme:
    [if ('%s://' % name) not in addr: addr = '%s://%s' % (name, addr)]. *)
Definition with_scheme (name addr : string) : string :=
  if negb (str_in (name ++ "://") addr)
  then name ++ "://" ++ addr
  else addr.

Definition check_server {Store} (env : Env Store) (name : string)
  : M (list (event Store)) bool :=
  match get_actor env with
  | None =>
      raise (mkExc AttributeError "'NoneType' object has no attribute 'cfg'")
  | Some actor =>
      let cfg_ := actor_cfg actor in
      let addr := cfg_get cfg_ (name ++ "_server") in
      match addr with
      | Some addr0 =>
          if truthy_str addr0 then
            let addr1 := with_scheme name addr0 in
            emit (EvCreateStore addr1);;
            match create_store env addr1 with
            | Raised e =>
                if isinstance e ImproperlyConfigured then mret false
                else raise e
            | Returned sync_store =>
                emit (EvPing sync_store);;
                match run_ping env sync_store with
                | Returned _ => mret true
                | Raised e =>
                    if isinstance e Exception then mret false else raise e
                end
            end
          else mret false
      | None => mret false
      end
  end.

(** *** dont_run_with_thread *)

(** [unittest.skip(reason)] applied to [test_item], from the standard
    library: a function is replaced by a wrapper that raises
    [SkipTest(reason)], a class is kept; both get the two skip
    attributes. *)
Definition unittest_skip (reason : string) (test_item : TestObject)
  : TestObject :=
  {| qualname := qualname test_item;
     is_class := is_class test_item;
     skip_wrapper :=
       if is_class test_item then skip_wrapper test_item else Some reason;
     _sequential_execution := _sequential_execution test_item;
     _test_timeout := _test_timeout test_item;
     __unittest_skip__ := Some true;
     __unittest_skip_why__ := Some reason;
     __unittest_expecting_failure__ :=
       __unittest_expecting_failure__ test_item |}.

(** [unittest.skipUnless(condition, reason)]: the identity decorator
    when the condition holds. *)
Definition skipUnless (condition : bool) (reason : string)
  : TestObject -> TestObject :=
  if negb condition then unittest_skip reason else fun obj => obj.

Definition dont_run_with_thread (current_actor : option Actor)
    (obj : TestObject) : TestObject :=
  match current_actor with
  | Some actor =>
      let d :=
        skipUnless (String.eqb (cfg_concurrency (actor_cfg actor)) "process")
                   "Run only when concurrency is process" in
      d obj
  | None => obj
  end.

End TestUtils.

(** ** [pulsar/apps/pulsardjp/models.py] *)

Module Models.

(** A stored task: the primary key and the fields [get_task] and its
    callers look at. *)
Record Task : Type := mkTask {
  id : string;
  name : string;
  status : string
}.

(** The fields kept under a primary key in the store. *)
Record TaskRow : Type := mkTaskRow {
  row_name : string;
  row_status : string
}.

(** [self.id[:8]] *)
Definition short_id (self : Task) : string := String.substring 0 8 (id self).

(** [Task.__unicode__]: ['{0}({1})'.format(self.name, self.id[:8])] *)
Definition Task_unicode (self : Task) : string :=
  name self ++ "(" ++ String.substring 0 8 (id self) ++ ")".

(** A server record, with the fields of the model. *)
Record PulsarServer : Type := mkPulsarServer {
  code : string;
  host : string;
  port : Z;
  notes : string;
  location : string;
  schema : string
}.

(** [PulsarServer.path]; [':%s' % self.port] prints the integer in
    decimal, and a port of 0 is false. *)
Definition path (self : PulsarServer) : string :=
  let ap := if bool_decide (port self <> 0%Z)
            then ":" ++ pretty (port self)
            else "" in
  schema self ++ host self ++ ap.

(** [PulsarServer.__unicode__]:
    ['{0} - {1}'.format(self.code, self.path())] *)
Definition PulsarServer_unicode (self : PulsarServer) : string :=
  code self ++ " - " ++ path self.

Section GetTask.

(** [tasks.Task.done], inherited from [pulsar.apps.tasks]. *)
Variable done : Task -> bool.

(** [cls.objects.get(id = id)] *)
Definition objects_get (id_ : string) : M (gmap string TaskRow) Task :=
  fun db =>
    match db !! id_ with
    | Some row => (Returned (mkTask id_ (row_name row) (row_status row)), db)
    | None => (Raised (mkExc DoesNotExist "Task matching query does not exist"), db)
    end.

(** [task.delete()] *)
Definition delete_task (task : Task) : M (gmap string TaskRow) unit :=
  fun db => (Returned tt, delete (id task) db).

(** [Task.get_task(id, remove)]: the body of the [try], then the
    [except cls.DoesNotExist: pass] handler. *)
Definition get_task (id_ : string) (remove : bool)
  : M (gmap string TaskRow) (option Task) :=
  fun db =>
    let body : M (gmap string TaskRow) (option Task) :=
      task ← objects_get id_;
      if remove && done task
      then delete_task task;; mret None
      else mret (Some task) in
    match body db with
    | (Raised e, db') =>
        if isinstance e DoesNotExist then (Returned None, db')
        else (Raised e, db')
    | (Returned r, db') => (Returned r, db')
    end.

End GetTask.

End Models.

(** ** Concrete collaborators, used to run the definitions *)

Module Examples.
Import TestUtils Models.

Definition plain_test : TestObject :=
  mkTestObject "test_spawn" false None None None None None None.

Definition redis_cfg (addr : option string) (mode : string) : Config :=
  mkConfig mode
    match addr with
    | Some a => {[ "redis_server" := a ]}
    | None => ∅
    end.

(** A store factory that refuses every address, one that accepts every
    address, and the two ways a liveness request can end. *)
Definition refuse_address (addr : string) : outcome string :=
  Raised (mkExc ImproperlyConfigured ("no store for " ++ addr)).

Definition accept_address (addr : string) : outcome string := Returned addr.

(** A store factory that fails with something other than a
    configuration error. *)
Definition broken_factory (addr : string) : outcome string :=
  Raised (mkExc ValueError ("invalid port in " ++ addr)).

(** A store factory that only knows addresses that start with the
    redis scheme; the store it returns is the address it was given. *)
Definition redis_only_factory (addr : string) : outcome string :=
  if startswith addr "redis://" then Returned addr
  else Raised (mkExc ImproperlyConfigured ("no store for " ++ addr)).

Definition ping_ok (store : string) : outcome unit := Returned tt.

Definition ping_interrupted (store : string) : outcome unit :=
  Raised (mkExc KeyboardInterrupt "interrupted").

Definition ping_refused (store : string) : outcome unit :=
  Raised (mkExc ConnectionRefusedError "connection refused").

Definition env_of (addr : option string)
    (factory : string -> outcome string) (ping : string -> outcome unit)
  : Env string :=
  mkEnv (Some (mkActor (redis_cfg addr "thread"))) factory ping.

(** A runtime whose proxies are plain records and whose [spawn] gives a
    fixed future. *)
Record SimpleProxy : Type := mkSimpleProxy {
  sp_aid : string;
  sp_cfg : option Config
}.

Definition simple_runtime (ad : SpawnFuture SimpleProxy) : ActorRuntime :=
  {| ActorProxy := SimpleProxy;
     Request := string * string;
     aid := sp_aid;
     proxy := fun p => p;
     cfg := sp_cfg;
     proxy_eqb := fun p q => String.eqb (sp_aid p) (sp_aid q);
     spawn := fun _ _ => Returned ad;
     send := fun p command => Returned (sp_aid p, command) |}.

Definition good_proxy : SimpleProxy :=
  mkSimpleProxy "a1b2c3" (Some (redis_cfg None "thread")).

Definition proxy_without_cfg : SimpleProxy := mkSimpleProxy "a1b2c3" None.

Definition good_spawn : SpawnFuture SimpleProxy :=
  mkSpawnFuture "a1b2c3" true (Returned good_proxy).

Definition spawn_without_cfg : SpawnFuture SimpleProxy :=
  mkSpawnFuture "a1b2c3" true (Returned proxy_without_cfg).

Definition new_instance {RT : ActorRuntime} : TestInstance :=
  mkTestInstance (mkTestCase "ActorTest" AssertionError) "thread" None.

(** An address that mentions the scheme, but not at its start. *)
Definition fallback_addr : string :=
  "cache.local:6379/?fallback=redis://backup:6379".

Definition a_case : TestCase := mkTestCase "MyTest" AssertionError.

Definition raises (c : pyclass) : Callable :=
  mkCallable "<function f>" (Returned (Awaitable (Raised (mkExc c "boom")))).

Definition returns_quietly : Callable :=
  mkCallable "<function f>" (Returned (Awaitable (Returned tt))).

(** A task is done when its status is one of the two final ones. *)
Definition done_by_status (t : Task) : bool :=
  bool_decide (status t = "SUCCESS") || bool_decide (status t = "FAILURE").

Definition two_tasks : gmap string TaskRow :=
  {[ "t1" := mkTaskRow "addition" "SUCCESS";
     "t2" := mkTaskRow "addition" "STARTED" ]}.

End Examples.

(** * Properties *)

Import TestUtils Models.

(** ** Helper lemmas *)

Lemma py_max_Zmax (a b : Z) : py_max a b = Z.max a b.
Proof.
  unfold py_max. destruct (Z.ltb_spec a b); lia.
Qed.

Lemma prefix_str_in (needle hay : string) :
  String.prefix needle hay = true -> str_in needle hay = true.
Proof.
  intros H. destruct hay; cbn [str_in]; rewrite H; reflexivity.
Qed.

Lemma with_scheme_absent (name addr : string) :
  str_in (name ++ "://") addr = false ->
  with_scheme name addr = name ++ "://" ++ addr.
Proof. intros H. unfold with_scheme. rewrite H. reflexivity. Qed.

Lemma with_scheme_present (name addr : string) :
  str_in (name ++ "://") addr = true -> with_scheme name addr = addr.
Proof. intros H. unfold with_scheme. rewrite H. reflexivity. Qed.

(** ** Execution-control annotations *)

(** C4: [get_test_timeout(o, timeout)] returns the maximum of the
    object's [_test_timeout] (0 when the attribute is absent) and
    [timeout], never raises, and leaves the object as it was; an
    override of 30 with baseline 10 gives 30, no override with baseline
    10 gives 10. *)
Theorem get_test_timeout_is_max (o : TestObject) (timeout : Z) :
  get_test_timeout timeout o
    = (Returned (Z.max (default 0%Z (_test_timeout o)) timeout), o)
  /\ get_test_timeout 10 (test_timeout 30 o)
       = (Returned 30%Z, test_timeout 30 o)
  /\ (_test_timeout o = None -> get_test_timeout 10 o = (Returned 10%Z, o)).
Proof.
  assert (G : forall u t, get_test_timeout t u
            = (Returned (Z.max (default 0%Z (_test_timeout u)) t), u)).
  { intros u t. unfold get_test_timeout, getattr, mbind, M_bind, mret, M_ret.
    rewrite py_max_Zmax. reflexivity. }
  split; [apply G|]. split.
  - rewrite G. reflexivity.
  - intros Habs. rewrite G, Habs. reflexivity.
Qed.

(** ** Server reachability probe *)

Section CheckServer.
Context {Store : Type}.
Implicit Types (env : Env Store) (actor : Actor) (log : list (event Store)).

Lemma check_server_unset env name actor log :
  get_actor env = Some actor ->
  truthy_opt_str (cfg_get (actor_cfg actor) (name ++ "_server")) = false ->
  check_server env name log = (Returned false, log).
Proof.
  intros Ha Hu. unfold check_server. rewrite Ha.
  destruct (cfg_get _ _) as [addr|]; [|reflexivity].
  simpl in Hu. rewrite Hu. reflexivity.
Qed.

Lemma check_server_refused env name actor addr e log :
  get_actor env = Some actor ->
  cfg_get (actor_cfg actor) (name ++ "_server") = Some addr ->
  truthy_str addr = true ->
  create_store env (with_scheme name addr) = Raised e ->
  check_server env name log
    = (if isinstance e ImproperlyConfigured then Returned false else Raised e,
       (log ++ [EvCreateStore (with_scheme name addr)])%list).
Proof.
  intros Ha Hc Ht Hs. unfold check_server.
  rewrite Ha, Hc, Ht.
  unfold mbind, M_bind, emit, mret, M_ret, raise. rewrite Hs.
  destruct (isinstance e ImproperlyConfigured); reflexivity.
Qed.

Lemma check_server_connected env name actor addr sync_store log :
  get_actor env = Some actor ->
  cfg_get (actor_cfg actor) (name ++ "_server") = Some addr ->
  truthy_str addr = true ->
  create_store env (with_scheme name addr) = Returned sync_store ->
  check_server env name log
    = (match run_ping env sync_store with
       | Returned _ => Returned true
       | Raised e => if isinstance e Exception then Returned false else Raised e
       end,
       (log ++ [EvCreateStore (with_scheme name addr); EvPing sync_store])%list).
Proof.
  intros Ha Hc Ht Hs. unfold check_server.
  rewrite Ha, Hc, Ht.
  unfold mbind, M_bind, emit, mret, M_ret, raise. rewrite Hs.
  rewrite <- (assoc_L (++)). simpl.
  destruct (run_ping env sync_store) as [[]|e]; [reflexivity|].
  destruct (isinstance e Exception); reflexivity.
Qed.

Lemma check_server_no_actor env name log :
  get_actor env = None ->
  exists e, check_server env name log = (Raised e, log)
            /\ exc_type e = AttributeError.
Proof.
  intros Ha. unfold check_server. rewrite Ha. eexists. split; reflexivity.
Qed.

(** C1 (as the code has it): with an actor context in place,
    [check_server(name)] returns [False] when the [<name>_server] value
    is unset (absent or empty), when the store factory raises
    [ImproperlyConfigured] for the address, and when the liveness
    request raises an [Exception]; it returns [True] when the liveness
    request completes, and only then; an exception of the store factory
    that is not an [ImproperlyConfigured], and an exception of the
    liveness request that is not an [Exception], leave the function as
    they are. *)
Theorem check_server_returns_bool env name actor log
    (Hactor : get_actor env = Some actor) :
  (truthy_opt_str (cfg_get (actor_cfg actor) (name ++ "_server")) = false ->
   check_server env name log = (Returned false, log))
  /\ (forall addr e,
        cfg_get (actor_cfg actor) (name ++ "_server") = Some addr ->
        truthy_str addr = true ->
        create_store env (with_scheme name addr) = Raised e ->
        isinstance e ImproperlyConfigured = true ->
        fst (check_server env name log) = Returned false)
  /\ (forall addr sync_store e,
        cfg_get (actor_cfg actor) (name ++ "_server") = Some addr ->
        truthy_str addr = true ->
        create_store env (with_scheme name addr) = Returned sync_store ->
        run_ping env sync_store = Raised e ->
        isinstance e Exception = true ->
        fst (check_server env name log) = Returned false)
  /\ (forall addr sync_store,
        cfg_get (actor_cfg actor) (name ++ "_server") = Some addr ->
        truthy_str addr = true ->
        create_store env (with_scheme name addr) = Returned sync_store ->
        run_ping env sync_store = Returned tt ->
        fst (check_server env name log) = Returned true)
  /\ (fst (check_server env name log) = Returned true ->
      exists addr sync_store,
        cfg_get (actor_cfg actor) (name ++ "_server") = Some addr
        /\ truthy_str addr = true
        /\ create_store env (with_scheme name addr) = Returned sync_store
        /\ run_ping env sync_store = Returned tt)
  /\ (forall addr e,
        cfg_get (actor_cfg actor) (name ++ "_server") = Some addr ->
        truthy_str addr = true ->
        create_store env (with_scheme name addr) = Raised e ->
        isinstance e ImproperlyConfigured = false ->
        fst (check_server env name log) = Raised e)
  /\ (forall addr sync_store e,
        cfg_get (actor_cfg actor) (name ++ "_server") = Some addr ->
        truthy_str addr = true ->
        create_store env (with_scheme name addr) = Returned sync_store ->
        run_ping env sync_store = Raised e ->
        isinstance e Exception = false ->
        fst (check_server env name log) = Raised e).
Proof.
  split; [|split; [|split; [|split; [|split; [|split]]]]].
  - apply check_server_unset; assumption.
  - intros addr e Hc Ht Hs He.
    rewrite (check_server_refused _ _ _ _ _ _ Hactor Hc Ht Hs).
    simpl. rewrite He. reflexivity.
  - intros addr s e Hc Ht Hs Hp He.
    rewrite (check_server_connected _ _ _ _ _ _ Hactor Hc Ht Hs).
    simpl. rewrite Hp, He. reflexivity.
  - intros addr s Hc Ht Hs Hp.
    rewrite (check_server_connected _ _ _ _ _ _ Hactor Hc Ht Hs).
    simpl. rewrite Hp. reflexivity.
  - intros Htrue.
    destruct (cfg_get (actor_cfg actor) (name ++ "_server")) as [addr|] eqn:Hc.
    + destruct (truthy_str addr) eqn:Ht.
      * destruct (create_store env (with_scheme name addr)) as [s|e] eqn:Hs.
        -- rewrite (check_server_connected _ _ _ _ _ _ Hactor Hc Ht Hs) in Htrue.
           simpl in Htrue. exists addr, s.
           destruct (run_ping env s) as [[]|e]; [auto|].
           destruct (isinstance e Exception); discriminate.
        -- rewrite (check_server_refused _ _ _ _ _ _ Hactor Hc Ht Hs) in Htrue.
           simpl in Htrue.
           destruct (isinstance e ImproperlyConfigured); discriminate.
      * rewrite (check_server_unset _ _ _ _ Hactor) in Htrue; [discriminate|].
        rewrite Hc. exact Ht.
    + rewrite (check_server_unset _ _ _ _ Hactor) in Htrue; [discriminate|].
      rewrite Hc. reflexivity.
  - intros addr e Hc Ht Hs He.
    rewrite (check_server_refused _ _ _ _ _ _ Hactor Hc Ht Hs).
    simpl. rewrite He. reflexivity.
  - intros addr s e Hc Ht Hs Hp He.
    rewrite (check_server_connected _ _ _ _ _ _ Hactor Hc Ht Hs).
    simpl. rewrite Hp, He. reflexivity.
Qed.

(** What [check_server] does once the address [a] has been settled:
    the store factory is called with [a], and the liveness request is
    run on the store it returned. *)
Local Abbreviation probe_at env a log :=
  (match create_store env a with
   | Raised e =>
       (if isinstance e ImproperlyConfigured then Returned false else Raised e,
        app log (cons (EvCreateStore a) nil))
   | Returned sync_store =>
       (match run_ping env sync_store with
        | Returned _ => Returned true
        | Raised e =>
            if isinstance e Exception then Returned false else Raised e
        end,
        app log (cons (EvCreateStore a) (cons (EvPing sync_store) nil)))
   end).

(** C5 (as the code has it): once an address is configured, the store
    factory is called with ["<name>://"] put in front of the address
    when ["<name>://"] occurs nowhere in it, and with the address
    itself when ["<name>://"] occurs in it, in particular when the
    address starts with it; the result and the calls made are those of
    the factory at that argument. *)
Theorem check_server_adds_scheme_when_absent env name actor addr log
    (Hactor : get_actor env = Some actor)
    (Hcfg : cfg_get (actor_cfg actor) (name ++ "_server") = Some addr)
    (Hset : truthy_str addr = true) :
  (str_in (name ++ "://") addr = false ->
   check_server env name log = probe_at env (name ++ "://" ++ addr) log)
  /\ (str_in (name ++ "://") addr = true ->
      check_server env name log = probe_at env addr log)
  /\ (startswith addr (name ++ "://") = true ->
      check_server env name log = probe_at env addr log).
Proof.
  assert (Hrun : check_server env name log
                 = probe_at env (with_scheme name addr) log).
  { destruct (create_store env (with_scheme name addr)) as [s|e] eqn:Hs.
    - apply (check_server_connected _ _ _ _ _ _ Hactor Hcfg Hset Hs).
    - apply (check_server_refused _ _ _ _ _ _ Hactor Hcfg Hset Hs). }
  split; [|split].
  - intros Habs. rewrite Hrun, (with_scheme_absent _ _ Habs). reflexivity.
  - intros Hin. rewrite Hrun, (with_scheme_present _ _ Hin). reflexivity.
  - intros Hp. rewrite Hrun.
    rewrite (with_scheme_present _ _ (prefix_str_in _ _ Hp)). reflexivity.
Qed.

End CheckServer.

(** C1 as stated fails: the address is malformed, the store factory
    fails with an error that is not a configuration error, and that
    error leaves [check_server]. *)
Lemma check_server_construction_error_counterexample :
  fst (check_server
         (Examples.env_of (Some "127.0.0.1:x") Examples.broken_factory
            Examples.ping_ok) "redis" [])
  = Raised (mkExc ValueError "invalid port in redis://127.0.0.1:x")
  /\ fst (check_server
            (Examples.env_of (Some "127.0.0.1:x") Examples.broken_factory
               Examples.ping_ok) "redis" [])
     <> Returned false.
Proof.
  split; [vm_compute; reflexivity|]. vm_compute. discriminate.
Qed.

(** Runs of C1 on concrete configurations: no address, an address the
    factory refuses, a server that refuses the connection, a server
    that answers, a factory that fails otherwise, and an interrupted
    liveness request. *)
Lemma check_server_returns_bool_witness :
  check_server (Examples.env_of None Examples.accept_address Examples.ping_ok)
    "redis" [] = (Returned false, [])
  /\ fst (check_server
            (Examples.env_of (Some "127.0.0.1:6379") Examples.refuse_address
               Examples.ping_ok) "redis" []) = Returned false
  /\ fst (check_server
            (Examples.env_of (Some "127.0.0.1:6379") Examples.accept_address
               Examples.ping_refused) "redis" []) = Returned false
  /\ fst (check_server
            (Examples.env_of (Some "127.0.0.1:6379") Examples.accept_address
               Examples.ping_ok) "redis" []) = Returned true
  /\ fst (check_server
            (Examples.env_of (Some "127.0.0.1:6379") Examples.broken_factory
               Examples.ping_ok) "redis" [])
     = Raised (mkExc ValueError "invalid port in redis://127.0.0.1:6379")
  /\ fst (check_server
            (Examples.env_of (Some "127.0.0.1:6379") Examples.accept_address
               Examples.ping_interrupted) "redis" [])
     = Raised (mkExc KeyboardInterrupt "interrupted").
Proof.
  split; [|split; [|split; [|split; [|split]]]].
  - destruct (check_server_returns_bool
                (Examples.env_of None Examples.accept_address Examples.ping_ok)
                "redis" _ [] eq_refl) as (Hunset & _).
    apply Hunset. vm_compute; reflexivity.
  - destruct (check_server_returns_bool
                (Examples.env_of (Some "127.0.0.1:6379")
                   Examples.refuse_address Examples.ping_ok)
                "redis" _ [] eq_refl) as (_ & Hrefused & _).
    eapply Hrefused; vm_compute; reflexivity.
  - destruct (check_server_returns_bool
                (Examples.env_of (Some "127.0.0.1:6379")
                   Examples.accept_address Examples.ping_refused)
                "redis" _ [] eq_refl) as (_ & _ & Hdown & _).
    eapply Hdown; vm_compute; reflexivity.
  - destruct (check_server_returns_bool
                (Examples.env_of (Some "127.0.0.1:6379")
                   Examples.accept_address Examples.ping_ok)
                "redis" _ [] eq_refl) as (_ & _ & _ & Hup & _).
    eapply Hup; vm_compute; reflexivity.
  - destruct (check_server_returns_bool
                (Examples.env_of (Some "127.0.0.1:6379")
                   Examples.broken_factory Examples.ping_ok)
                "redis" _ [] eq_refl) as (_ & _ & _ & _ & _ & Hbroken & _).
    eapply Hbroken; vm_compute; reflexivity.
  - destruct (check_server_returns_bool
                (Examples.env_of (Some "127.0.0.1:6379")
                   Examples.accept_address Examples.ping_interrupted)
                "redis" _ [] eq_refl) as (_ & _ & _ & _ & _ & _ & Hint).
    eapply Hint; vm_compute; reflexivity.
Defined.

(** C5 as stated fails: this address does not start with ["redis://"],
    yet the factory is called with it unchanged: the store it returns,
    on which the liveness request runs, is the one for the bare
    address. *)
Lemma check_server_scheme_prefix_counterexample :
  startswith Examples.fallback_addr "redis://" = false
  /\ check_server
       (Examples.env_of (Some Examples.fallback_addr)
          Examples.accept_address Examples.ping_ok) "redis" []
     = (Returned true,
        [EvCreateStore Examples.fallback_addr; EvPing Examples.fallback_addr])
  /\ check_server
       (Examples.env_of (Some Examples.fallback_addr)
          Examples.accept_address Examples.ping_ok) "redis" []
     <> (Returned true,
         [EvCreateStore ("redis://" ++ Examples.fallback_addr);
          EvPing ("redis://" ++ Examples.fallback_addr)]).
Proof.
  split; [vm_compute; reflexivity|].
  split; [vm_compute; reflexivity|].
  vm_compute. discriminate.
Qed.

(** Runs of C5 with a factory that refuses every address that does not
    start with the scheme: the bare address reaches it with the scheme
    in front, the complete address reaches it as it is. *)
Lemma check_server_adds_scheme_when_absent_witness :
  check_server
    (Examples.env_of (Some "127.0.0.1:6379") Examples.redis_only_factory
       Examples.ping_ok) "redis" []
  = (Returned true,
     [EvCreateStore "redis://127.0.0.1:6379"; EvPing "redis://127.0.0.1:6379"])
  /\ check_server
       (Examples.env_of (Some "redis://127.0.0.1:6379")
          Examples.redis_only_factory Examples.ping_ok) "redis" []
     = (Returned true,
        [EvCreateStore "redis://127.0.0.1:6379";
         EvPing "redis://127.0.0.1:6379"]).
Proof.
  split.
  - destruct (check_server_adds_scheme_when_absent
                (Examples.env_of (Some "127.0.0.1:6379")
                   Examples.redis_only_factory Examples.ping_ok)
                "redis" _ "127.0.0.1:6379" [] eq_refl eq_refl eq_refl)
      as (Habsent & _).
    exact (Habsent eq_refl).
  - destruct (check_server_adds_scheme_when_absent
                (Examples.env_of (Some "redis://127.0.0.1:6379")
                   Examples.redis_only_factory Examples.ping_ok)
                "redis" _ "redis://127.0.0.1:6379" [] eq_refl eq_refl eq_refl)
      as (_ & _ & Hprefix).
    exact (Hprefix eq_refl).
Defined.

(** ** Asynchronous assertion proxy *)

Lemma assertRaises_on_raise (self : AsyncAssert) (error : pyclass)
    (c : Callable) (e : exc) :
  call_and_yield_from c = Raised e ->
  assertRaises self error c
    = if isinstance e error then Returned tt
      else if isinstance e Exception then
        Raised (mkExc (failureException (test self)) (not_raised_msg error c))
      else Raised e.
Proof. intros H. unfold assertRaises. rewrite H. reflexivity. Qed.

Lemma callable_raises_run (c : Callable) (e : exc) :
  callable_raises c e -> call_and_yield_from c = Raised e.
Proof.
  unfold call_and_yield_from. intros [H|H]; rewrite H; reflexivity.
Qed.

(** C2 as stated fails: the callable raises [KeyboardInterrupt], which
    is not a [ValueError], and [assertRaises] lets it through instead of
    failing with the "not raised" message. *)
Lemma assertRaises_unexpected_counterexample :
  isinstance (mkExc KeyboardInterrupt "boom") ValueError = false
  /\ assertRaises (mkAsyncAssert Examples.a_case) ValueError
       (Examples.raises KeyboardInterrupt)
     = Raised (mkExc KeyboardInterrupt "boom")
  /\ assertRaises (mkAsyncAssert Examples.a_case) ValueError
       (Examples.raises KeyboardInterrupt)
     <> Raised (mkExc (failureException Examples.a_case)
                  (not_raised_msg ValueError
                     (Examples.raises KeyboardInterrupt))).
Proof.
  split; [vm_compute; reflexivity|].
  split; [vm_compute; reflexivity|].
  vm_compute. discriminate.
Qed.

(** C2 (as the code has it): if the callable raises [error] or a
    subclass of it, [assertRaises] returns silently; if the awaitable
    it returned completes without an exception, [assertRaises] fails
    with the test's [failureException] and the "not raised" message; if
    the callable raises another exception that is an instance of
    [Exception], it fails with that same message instead of re-raising;
    an exception that is neither (such as [KeyboardInterrupt]) is
    re-raised as it is. *)
Theorem assertRaises_outcomes (self : AsyncAssert) (error : pyclass)
    (c : Callable) :
  (forall e, callable_raises c e -> isinstance e error = true ->
     assertRaises self error c = Returned tt)
  /\ (forall v, call c = Returned (Awaitable (Returned v)) ->
        assertRaises self error c
          = Raised (mkExc (failureException (test self))
                      (str_class error ++ " not raised by "
                         ++ callable_str c)))
  /\ (forall e, callable_raises c e -> isinstance e error = false ->
        isinstance e Exception = true ->
        assertRaises self error c
          = Raised (mkExc (failureException (test self))
                      (str_class error ++ " not raised by "
                         ++ callable_str c)))
  /\ (forall e, callable_raises c e -> isinstance e error = false ->
        isinstance e Exception = false ->
        assertRaises self error c = Raised e).
Proof.
  repeat split.
  - intros e Hr He.
    rewrite (assertRaises_on_raise _ _ _ _ (callable_raises_run _ _ Hr)), He.
    reflexivity.
  - intros v Hc. unfold assertRaises, call_and_yield_from. rewrite Hc.
    reflexivity.
  - intros e Hr He Hx.
    rewrite (assertRaises_on_raise _ _ _ _ (callable_raises_run _ _ Hr)), He, Hx.
    reflexivity.
  - intros e Hr He Hx.
    rewrite (assertRaises_on_raise _ _ _ _ (callable_raises_run _ _ Hr)), He, Hx.
    reflexivity.
Qed.

Lemma assertRaises_outcomes_witness :
  assertRaises (mkAsyncAssert Examples.a_case) OSError
    (Examples.raises ConnectionRefusedError) = Returned tt
  /\ assertRaises (mkAsyncAssert Examples.a_case) ValueError
       Examples.returns_quietly
     = Raised (mkExc AssertionError
                 "<class 'ValueError'> not raised by <function f>")
  /\ assertRaises (mkAsyncAssert Examples.a_case) ValueError
       (Examples.raises TypeError)
     = Raised (mkExc AssertionError
                 "<class 'ValueError'> not raised by <function f>")
  /\ assertRaises (mkAsyncAssert Examples.a_case) ValueError
       (Examples.raises SystemExit)
     = Raised (mkExc SystemExit "boom").
Proof.
  split; [|split; [|split]].
  - destruct (assertRaises_outcomes (mkAsyncAssert Examples.a_case) OSError
                (Examples.raises ConnectionRefusedError)) as (H & _).
    apply (H (mkExc ConnectionRefusedError "boom")).
    + right. reflexivity.
    + vm_compute; reflexivity.
  - destruct (assertRaises_outcomes (mkAsyncAssert Examples.a_case) ValueError
                Examples.returns_quietly) as (_ & H & _).
    apply (H tt). reflexivity.
  - destruct (assertRaises_outcomes (mkAsyncAssert Examples.a_case) ValueError
                (Examples.raises TypeError)) as (_ & _ & H & _).
    apply (H (mkExc TypeError "boom")).
    + right. reflexivity.
    + vm_compute; reflexivity.
    + vm_compute; reflexivity.
  - destruct (assertRaises_outcomes (mkAsyncAssert Examples.a_case) ValueError
                (Examples.raises SystemExit)) as (_ & _ & _ & H).
    apply (H (mkExc SystemExit "boom")).
    + right. reflexivity.
    + vm_compute; reflexivity.
    + vm_compute; reflexivity.
Defined.

(** A callable that returns an object that cannot be iterated makes
    [yield from] raise [TypeError] inside the [try]: expecting
    [TypeError] then passes although the callable raised nothing. *)
Lemma assertRaises_not_iterable :
  assertRaises (mkAsyncAssert Examples.a_case) TypeError
    (mkCallable "<function f>" (Returned NotIterable)) = Returned tt.
Proof. reflexivity. Qed.

(** C7 as stated fails: two accesses through the same instance give two
    different objects. *)
Lemma AsyncAssert_get_identity_counterexample :
  exists first second h1 h2,
    AsyncAssert_get 0 (Some Examples.a_case) [mkAsyncAssert Examples.a_case]
      = (Returned first, h1)
    /\ AsyncAssert_get 0 (Some Examples.a_case) h1 = (Returned second, h2)
    /\ first <> second.
Proof.
  exists 1%nat, 2%nat. eexists. eexists.
  split; [reflexivity|]. split; [reflexivity|]. discriminate.
Qed.

(** C7 (as the code has it): every access through an instance builds a
    new proxy bound to that instance, at an address that held no object
    before; a second access gives another new proxy, different from the
    first, bound to the same instance; objects already there are kept;
    access through the class returns the descriptor and builds
    nothing. *)
Theorem AsyncAssert_get_builds_new_proxy (self : nat) (instance : TestCase)
    (h : heap) :
  exists first h1 second h2,
    AsyncAssert_get self (Some instance) h = (Returned first, h1)
    /\ AsyncAssert_get self (Some instance) h1 = (Returned second, h2)
    /\ h !! first = None
    /\ h1 !! first = Some (mkAsyncAssert instance)
    /\ h1 !! second = None
    /\ h2 !! second = Some (mkAsyncAssert instance)
    /\ h2 !! first = Some (mkAsyncAssert instance)
    /\ first <> second
    /\ (forall r o, h !! r = Some o -> h2 !! r = Some o)
    /\ AsyncAssert_get self None h = (Returned self, h).
Proof.
  exists (List.length h), (h ++ [mkAsyncAssert instance])%list.
  exists (List.length (h ++ [mkAsyncAssert instance])%list).
  exists ((h ++ [mkAsyncAssert instance]) ++ [mkAsyncAssert instance])%list.
  repeat split.
  - apply lookup_ge_None_2. lia.
  - rewrite lookup_app_r by lia. rewrite Nat.sub_diag. reflexivity.
  - apply lookup_ge_None_2. lia.
  - rewrite lookup_app_r by lia. rewrite Nat.sub_diag. reflexivity.
  - rewrite lookup_app_l by (rewrite length_app; simpl; lia).
    rewrite lookup_app_r by lia. rewrite Nat.sub_diag. reflexivity.
  - rewrite length_app. simpl. lia.
  - intros r o Hr.
    rewrite <- (assoc_L (++)). apply lookup_app_l_Some. exact Hr.
Qed.

(** ** Conditional skip decorator *)

(** C8: without an actor context [dont_run_with_thread] returns the
    object as it is; with one, it returns the object as it is when the
    configured concurrency is ['process'], and otherwise the object
    marked as skipped, with the reason
    ['Run only when concurrency is process'] and its other attributes
    kept. *)
Theorem dont_run_with_thread_marks (obj : TestObject) :
  dont_run_with_thread None obj = obj
  /\ forall actor,
       (cfg_concurrency (actor_cfg actor) = "process" ->
        dont_run_with_thread (Some actor) obj = obj)
       /\ (cfg_concurrency (actor_cfg actor) <> "process" ->
           skip_test (dont_run_with_thread (Some actor) obj) = true
           /\ skip_reason (dont_run_with_thread (Some actor) obj)
              = "Run only when concurrency is process"
           /\ qualname (dont_run_with_thread (Some actor) obj) = qualname obj
           /\ _test_timeout (dont_run_with_thread (Some actor) obj)
              = _test_timeout obj
           /\ _sequential_execution (dont_run_with_thread (Some actor) obj)
              = _sequential_execution obj).
Proof.
  split; [reflexivity|]. intros actor. unfold dont_run_with_thread, skipUnless.
  split.
  - intros Hp. rewrite Hp. reflexivity.
  - intros Hn.
    destruct (String.eqb_spec (cfg_concurrency (actor_cfg actor)) "process")
      as [Heq|_]; [contradiction|].
    simpl. repeat split.
Qed.

Lemma dont_run_with_thread_marks_witness :
  dont_run_with_thread None Examples.plain_test = Examples.plain_test
  /\ dont_run_with_thread
       (Some (mkActor (Examples.redis_cfg None "process"))) Examples.plain_test
     = Examples.plain_test
  /\ skip_test
       (dont_run_with_thread
          (Some (mkActor (Examples.redis_cfg None "thread")))
          Examples.plain_test) = true.
Proof.
  destruct (dont_run_with_thread_marks Examples.plain_test) as (Hnone & Hsome).
  split; [exact Hnone|]. split.
  - apply (Hsome (mkActor (Examples.redis_cfg None "process"))). reflexivity.
  - apply (Hsome (mkActor (Examples.redis_cfg None "thread"))). discriminate.
Defined.

(** ** Actor lifecycle mixin *)

Section MixinProps.
Context `{RT : ActorRuntime}.
Implicit Types (self : TestInstance) (p : ActorProxy).

Lemma tracked_set_spawned (l : list ActorProxy) self :
  tracked (set_spawned l self) = l.
Proof. reflexivity. Qed.

(** [all_spawned] followed by [append]: the list is created when it
    was missing, and the element lands at its end. *)
Lemma all_spawned_append self p :
  (all_spawned;; spawned_append p) self
    = (Returned tt, set_spawned (tracked self ++ [p])%list self).
Proof.
  unfold mbind, M_bind, all_spawned, spawned_append, tracked, set_spawned.
  destruct (_spawned self) eqn:Hl; cbn; rewrite ?Hl; reflexivity.
Qed.

(** Once the spawn has resolved, the proxy is in the tracked collection
    whatever the three assertions on it say. *)
Lemma spawn_actor_resolved (c : option string) (kw : list (string * string))
    self (ad : SpawnFuture ActorProxy) p :
  spawn (py_or c (concurrency self)) kw = Returned ad ->
  truthy_str (ad_aid ad) = true ->
  ad_is_Future ad = true ->
  ad_result ad = Returned p ->
  snd (spawn_actor c kw self) = set_spawned (tracked self ++ [p])%list self
  /\ (String.eqb (aid p) (ad_aid ad) && proxy_eqb (proxy p) p
        && truthy_cfg (cfg p) = true ->
      fst (spawn_actor c kw self) = Returned p)
  /\ (String.eqb (aid p) (ad_aid ad) && proxy_eqb (proxy p) p
        && truthy_cfg (cfg p) = false ->
      exists msg,
        fst (spawn_actor c kw self)
          = Raised (mkExc (failureException (self_case self)) msg)).
Proof.
  intros Hs Ha Hf Hr.
  unfold spawn_actor, mbind, M_bind, get, lift.
  rewrite Hs, Ha. cbn [assertTrue mret M_ret].
  rewrite Hf. cbn [assertIsInstance mret M_ret]. rewrite Hr.
  pose proof (all_spawned_append self p) as Happ.
  unfold mbind, M_bind in Happ.
  destruct (all_spawned self) as [[l|e] s1]; [|discriminate Happ].
  rewrite Happ.
  unfold assertEqual, assertTrue, fail, mret, M_ret.
  destruct (String.eqb (aid p) (ad_aid ad)); cbn;
    [|split; [reflexivity|split; [discriminate|eauto]]].
  destruct (proxy_eqb (proxy p) p); cbn;
    [|split; [reflexivity|split; [discriminate|eauto]]].
  destruct (truthy_cfg (cfg p)); cbn;
    [|split; [reflexivity|split; [discriminate|eauto]]].
  split; [reflexivity|split; [reflexivity|discriminate]].
Qed.

(** A run that does not reach the resolved proxy raises and leaves the
    instance untouched. *)
Lemma spawn_actor_cases (c : option string) (kw : list (string * string))
    self :
  (exists ad p,
     spawn (py_or c (concurrency self)) kw = Returned ad
     /\ truthy_str (ad_aid ad) = true
     /\ ad_is_Future ad = true
     /\ ad_result ad = Returned p)
  \/ (snd (spawn_actor c kw self) = self
      /\ exists e, fst (spawn_actor c kw self) = Raised e).
Proof.
  unfold spawn_actor, mbind, M_bind, get, lift.
  destruct (spawn (py_or c (concurrency self)) kw) as [ad|e] eqn:Hs;
    [|right; eauto].
  destruct (truthy_str (ad_aid ad)) eqn:Ha; cbn [assertTrue mret M_ret];
    [|right; unfold fail; eauto].
  destruct (ad_is_Future ad) eqn:Hf; cbn [assertIsInstance mret M_ret];
    [|right; unfold fail; eauto].
  destruct (ad_result ad) as [p|e] eqn:Hr; [|right; eauto].
  left. exists ad, p. auto.
Qed.

(** C3 (as the code has it): the resolved proxy is appended to the
    tracked collection as soon as the spawn resolves, before the three
    assertions on it; when one of them fails, [spawn_actor] raises the
    test's [failureException] and the tracked collection is the
    previous one with the resolved proxy at its end. *)
Theorem spawn_actor_tracks_before_asserting (c : option string)
    (kw : list (string * string)) self (ad : SpawnFuture ActorProxy) p
    (Hspawn : spawn (py_or c (concurrency self)) kw = Returned ad)
    (Haid : truthy_str (ad_aid ad) = true)
    (Hfuture : ad_is_Future ad = true)
    (Hresolved : ad_result ad = Returned p)
    (Hfails : String.eqb (aid p) (ad_aid ad) && proxy_eqb (proxy p) p
                && truthy_cfg (cfg p) = false) :
  (exists msg,
     fst (spawn_actor c kw self)
       = Raised (mkExc (failureException (self_case self)) msg))
  /\ tracked (snd (spawn_actor c kw self)) = (tracked self ++ [p])%list.
Proof.
  destruct (spawn_actor_resolved c kw self ad p Hspawn Haid Hfuture Hresolved)
    as (Hst & _ & Hraise).
  split; [exact (Hraise Hfails)|].
  rewrite Hst. apply tracked_set_spawned.
Qed.

(** C6: after a call of [spawn_actor] that returns, the tracked
    collection is the previous one with one more element at its end,
    that element is the returned proxy, and its identifier is the one
    the spawn request carried. *)
Theorem spawn_actor_tracks_handle (c : option string)
    (kw : list (string * string)) self self' p
    (Hrun : spawn_actor c kw self = (Returned p, self')) :
  tracked self' = (tracked self ++ [p])%list
  /\ List.length (tracked self') = S (List.length (tracked self))
  /\ last (tracked self') = Some p
  /\ exists ad,
       spawn (py_or c (concurrency self)) kw = Returned ad
       /\ ad_result ad = Returned p
       /\ aid p = ad_aid ad.
Proof.
  destruct (spawn_actor_cases c kw self)
    as [(ad & q & Hs & Ha & Hf & Hr)|(_ & e & He)].
  2:{ rewrite Hrun in He. discriminate He. }
  destruct (spawn_actor_resolved c kw self ad q Hs Ha Hf Hr)
    as (Hst & Hok & Hraise).
  rewrite Hrun in Hst, Hok, Hraise. simpl in Hst, Hok, Hraise.
  destruct (String.eqb (aid q) (ad_aid ad) && proxy_eqb (proxy q) q
              && truthy_cfg (cfg q)) eqn:Hchecks.
  2:{ destruct (Hraise eq_refl) as [msg Hm]. discriminate Hm. }
  specialize (Hok eq_refl). injection Hok as <-.
  subst self'. rewrite tracked_set_spawned.
  split; [reflexivity|]. split; [rewrite length_app; simpl; lia|].
  split; [apply last_snoc|].
  exists ad. split; [exact Hs|]. split; [exact Hr|].
  apply andb_prop in Hchecks as [Hchecks _].
  apply andb_prop in Hchecks as [Heq _].
  apply String.eqb_eq. exact Heq.
Qed.

(** C9: [stop_actors], with or without explicit handles, issues the
    ['stop'] requests to the given handles (to the tracked ones when
    none is given) and leaves the tracked collection as it was, also
    when a [send] raises; [tearDown] is [stop_actors] without
    arguments; and [spawn_actor], the remaining operation of the
    mixin, only ever adds at the end: no operation removes a record. *)
Theorem stop_actors_keeps_tracked self (args : list ActorProxy) :
  tracked (snd (stop_actors args self)) = tracked self
  /\ fst (stop_actors args self)
     = match send_stop (match args with
                        | [] => tracked self
                        | _ :: _ => args
                        end) with
       | Returned requests => Returned (multi_async requests)
       | Raised e => Raised e
       end
  /\ tearDown self = stop_actors [] self
  /\ tracked (snd (tearDown self)) = tracked self
  /\ forall c kw, tracked self `prefix_of` tracked (snd (spawn_actor c kw self)).
Proof.
  assert (Hstop : forall l,
            tracked (snd (stop_actors l self)) = tracked self
            /\ fst (stop_actors l self)
               = match send_stop (match l with
                                  | [] => tracked self
                                  | _ :: _ => l
                                  end) with
                 | Returned requests => Returned (multi_async requests)
                 | Raised e => Raised e
                 end).
  { intros l. unfold stop_actors, mbind, M_bind, all_spawned, lift, tracked.
    destruct l as [|a l].
    - destruct (_spawned self) as [l0|] eqn:Hl; cbn.
      + destruct (send_stop l0); cbn; rewrite Hl; split; reflexivity.
      + split; reflexivity.
    - cbn [mret M_ret].
      destruct (send_stop (a :: l)); split; reflexivity. }
  split; [apply Hstop|]. split; [apply Hstop|]. split; [reflexivity|].
  split; [apply (Hstop [])|].
  intros c kw.
  destruct (spawn_actor_cases c kw self)
    as [(ad & q & Hs & Ha & Hf & Hr)|(Hsame & _)].
  - destruct (spawn_actor_resolved c kw self ad q Hs Ha Hf Hr) as (Hst & _).
    rewrite Hst, tracked_set_spawned. apply prefix_app_r. reflexivity.
  - rewrite Hsame. reflexivity.
Qed.

End MixinProps.

(** C3 as stated fails: the spawned proxy has no configuration, the
    last assertion fails, and the proxy is in the tracked collection
    all the same. *)
Lemma spawn_actor_failed_check_counterexample :
  (exists msg,
     spawn_actor (RT := Examples.simple_runtime Examples.spawn_without_cfg)
       None [] Examples.new_instance
     = (Raised (mkExc AssertionError msg),
        set_spawned (RT := Examples.simple_runtime Examples.spawn_without_cfg)
          [Examples.proxy_without_cfg] Examples.new_instance))
  /\ tracked
       (snd (spawn_actor
               (RT := Examples.simple_runtime Examples.spawn_without_cfg)
               None [] Examples.new_instance))
     <> tracked (RT := Examples.simple_runtime Examples.spawn_without_cfg)
          Examples.new_instance.
Proof.
  split; [exists "expr is not true"; reflexivity|]. cbn. discriminate.
Qed.

Lemma spawn_actor_tracks_before_asserting_witness :
  (exists msg,
     fst (spawn_actor
            (RT := Examples.simple_runtime Examples.spawn_without_cfg)
            None [] Examples.new_instance)
       = Raised (mkExc AssertionError msg))
  /\ tracked
       (snd (spawn_actor
               (RT := Examples.simple_runtime Examples.spawn_without_cfg)
               None [] Examples.new_instance))
     = [Examples.proxy_without_cfg].
Proof.
  exact (spawn_actor_tracks_before_asserting
           (RT := Examples.simple_runtime Examples.spawn_without_cfg)
           None [] Examples.new_instance Examples.spawn_without_cfg
           Examples.proxy_without_cfg eq_refl eq_refl eq_refl eq_refl eq_refl).
Defined.

Lemma spawn_actor_tracks_handle_witness :
  spawn_actor (RT := Examples.simple_runtime Examples.good_spawn)
    None [] Examples.new_instance
  = (Returned Examples.good_proxy,
     set_spawned (RT := Examples.simple_runtime Examples.good_spawn)
       [Examples.good_proxy] Examples.new_instance)
  /\ tracked
       (set_spawned (RT := Examples.simple_runtime Examples.good_spawn)
          [Examples.good_proxy] Examples.new_instance)
     = [Examples.good_proxy]
  /\ List.length
       (tracked
          (set_spawned (RT := Examples.simple_runtime Examples.good_spawn)
             [Examples.good_proxy] Examples.new_instance))
     = 1%nat.
Proof.
  split; [reflexivity|].
  destruct (spawn_actor_tracks_handle
              (RT := Examples.simple_runtime Examples.good_spawn)
              None [] Examples.new_instance
              (set_spawned (RT := Examples.simple_runtime Examples.good_spawn)
                 [Examples.good_proxy] Examples.new_instance)
              Examples.good_proxy eq_refl) as (Htracked & Hlen & _).
  split; [exact Htracked|exact Hlen].
Defined.

(** ** Stored tasks *)

Section GetTaskProps.
Variable done : Task -> bool.
Implicit Types (db : gmap string TaskRow) (row : TaskRow).

(** C10: [get_task] never raises: it returns [None] and leaves the
    store alone when no task has the id; it deletes the task and
    returns [None] when [remove] is set and the task is done; in every
    other case it returns the task and leaves the store alone. *)
Theorem get_task_outcomes db (id_ : string) (remove : bool) :
  (db !! id_ = None -> get_task done id_ remove db = (Returned None, db))
  /\ (forall row,
        db !! id_ = Some row ->
        remove = true ->
        done (mkTask id_ (row_name row) (row_status row)) = true ->
        get_task done id_ remove db = (Returned None, delete id_ db))
  /\ (forall row,
        db !! id_ = Some row ->
        remove && done (mkTask id_ (row_name row) (row_status row)) = false ->
        get_task done id_ remove db
          = (Returned (Some (mkTask id_ (row_name row) (row_status row))), db))
  /\ exists r db', get_task done id_ remove db = (Returned r, db').
Proof.
  unfold get_task, objects_get, delete_task, mbind, M_bind, mret, M_ret.
  repeat split.
  - intros Hnone. rewrite Hnone. reflexivity.
  - intros row Hsome -> Hdone. rewrite Hsome. cbn. rewrite Hdone. reflexivity.
  - intros row Hsome Hkeep. rewrite Hsome. cbn. rewrite Hkeep. reflexivity.
  - destruct (db !! id_) as [row|]; [|cbn; eauto].
    cbn. destruct (remove && done _); cbn; eauto.
Qed.

End GetTaskProps.

Lemma get_task_outcomes_witness :
  get_task Examples.done_by_status "t9" true Examples.two_tasks
    = (Returned None, Examples.two_tasks)
  /\ get_task Examples.done_by_status "t1" true Examples.two_tasks
     = (Returned None, delete "t1" Examples.two_tasks)
  /\ get_task Examples.done_by_status "t2" true Examples.two_tasks
     = (Returned (Some (mkTask "t2" "addition" "STARTED")), Examples.two_tasks)
  /\ get_task Examples.done_by_status "t1" false Examples.two_tasks
     = (Returned (Some (mkTask "t1" "addition" "SUCCESS")), Examples.two_tasks).
Proof.
  split; [|split; [|split]].
  - apply (get_task_outcomes Examples.done_by_status Examples.two_tasks
             "t9" true).
    vm_compute; reflexivity.
  - destruct (get_task_outcomes Examples.done_by_status Examples.two_tasks
                "t1" true) as (_ & Hdel & _).
    apply (Hdel (mkTaskRow "addition" "SUCCESS"));
      [vm_compute; reflexivity|reflexivity|vm_compute; reflexivity].
  - destruct (get_task_outcomes Examples.done_by_status Examples.two_tasks
                "t2" true) as (_ & _ & Hkeep & _).
    apply (Hkeep (mkTaskRow "addition" "STARTED")); vm_compute; reflexivity.
  - destruct (get_task_outcomes Examples.done_by_status Examples.two_tasks
                "t1" false) as (_ & _ & Hkeep & _).
    apply (Hkeep (mkTaskRow "addition" "SUCCESS")); vm_compute; reflexivity.
Defined.

(** * Further properties of the embedded code *)

(** ** Strings and classes *)

Lemma prefix_app (s t : string) : String.prefix s (s ++ t) = true.
Proof.
  induction s as [|a s IH]; [destruct t; reflexivity|].
  simpl. destruct (Ascii.ascii_dec a a); [exact IH|contradiction].
Qed.

Lemma prefix_split (s h : string) :
  String.prefix s h = true <-> exists t, h = s ++ t.
Proof.
  split.
  - revert s. induction h as [|b h IH]; intros [|a s]; simpl.
    + exists "". reflexivity.
    + discriminate.
    + exists (String b h). reflexivity.
    + destruct (Ascii.ascii_dec a b) as [->|]; [|discriminate].
      intros Hp. destruct (IH _ Hp) as [t ->]. exists t. reflexivity.
  - intros [t ->]. apply prefix_app.
Qed.

Lemma str_in_split (needle hay : string) :
  str_in needle hay = true
  <-> exists pre post, hay = pre ++ needle ++ post.
Proof.
  split.
  - induction hay as [|b hay IH]; cbn [str_in]; intros H;
      apply orb_prop in H as [H|H].
    + apply prefix_split in H as [t ->]. exists "", t. reflexivity.
    + discriminate.
    + apply prefix_split in H as [t ->]. exists "", t. reflexivity.
    + destruct (IH H) as (pre & post & ->).
      exists (String b pre), post. reflexivity.
  - intros (pre & post & ->). induction pre as [|b pre IH].
    + change ("" ++ needle ++ post) with (needle ++ post).
      apply prefix_str_in, prefix_app.
    + change (String b pre ++ needle ++ post)
        with (String b (pre ++ needle ++ post)).
      cbn [str_in]. rewrite IH. apply orb_true_r.
Qed.

Lemma length_append (s t : string) :
  String.length (s ++ t) = (String.length s + String.length t)%nat.
Proof.
  induction s as [|a s IH]; [reflexivity|].
  change (String a s ++ t) with (String a (s ++ t)).
  cbn [String.length]. rewrite IH. reflexivity.
Qed.

Lemma append_assoc (s t u : string) : (s ++ t) ++ u = s ++ t ++ u.
Proof.
  induction s as [|a s IH]; [reflexivity|].
  change ((String a s ++ t) ++ u) with (String a ((s ++ t) ++ u)).
  rewrite IH. reflexivity.
Qed.

Lemma mro_head (c : pyclass) : c ∈ mro c.
Proof. destruct c; cbn; apply list_elem_of_here. Qed.

Lemma mro_closed (c d x : pyclass) : d ∈ mro c -> x ∈ mro d -> x ∈ mro c.
Proof.
  induction c as [| | | | | | | | | | | | | | | |n base IH];
    try (cbn [mro]; intros Hd Hx;
         repeat (apply elem_of_cons in Hd as [->|Hd];
                 [cbn [mro] in Hx;
                  repeat (apply elem_of_cons in Hx as [->|Hx];
                          [solve [repeat constructor]|]);
                  apply not_elem_of_nil in Hx; contradiction|]);
         apply not_elem_of_nil in Hd; contradiction).
  cbn [mro]. intros Hd Hx. apply elem_of_cons in Hd as [->|Hd].
  - exact Hx.
  - apply list_elem_of_further. apply IH; assumption.
Qed.

Lemma issubclass_refl (c : pyclass) : issubclass c c = true.
Proof. apply bool_decide_eq_true, mro_head. Qed.

Lemma issubclass_trans (c d e : pyclass) :
  issubclass c d = true -> issubclass d e = true -> issubclass c e = true.
Proof.
  unfold issubclass. rewrite !bool_decide_eq_true.
  intros Hcd Hde. exact (mro_closed c d e Hcd Hde).
Qed.

(** ** Decorators *)

(** X1: stacking two [test_timeout] decorations keeps only the outer
    one: the object is the one the outer decoration alone gives, and the
    timeout read back is the maximum of the outer value and the
    baseline, whatever the inner value was. *)
Theorem test_timeout_outer_wins (inner outer baseline : Z) (f : TestObject) :
  test_timeout outer (test_timeout inner f) = test_timeout outer f
  /\ fst (get_test_timeout baseline (test_timeout outer (test_timeout inner f)))
     = Returned (Z.max outer baseline).
Proof.
  split; [reflexivity|].
  unfold get_test_timeout, getattr, mbind, M_bind, mret, M_ret. cbn.
  rewrite py_max_Zmax. reflexivity.
Qed.

(** X2: [sequential], [test_timeout] and [dont_run_with_thread] can be
    stacked in any order: each pair commutes. *)
Theorem decorators_commute (t : Z) (current_actor : option Actor)
    (o : TestObject) :
  sequential (test_timeout t o) = test_timeout t (sequential o)
  /\ dont_run_with_thread current_actor (test_timeout t o)
     = test_timeout t (dont_run_with_thread current_actor o)
  /\ dont_run_with_thread current_actor (sequential o)
     = sequential (dont_run_with_thread current_actor o).
Proof.
  split; [reflexivity|].
  unfold dont_run_with_thread, skipUnless.
  destruct current_actor as [actor|]; [|split; reflexivity].
  destruct (String.eqb _ _); split; reflexivity.
Qed.

(** X3: [dont_run_with_thread] never clears a skip mark: an object
    that [skip_test] reports as skipped is still reported as skipped
    afterwards, whatever the actor context; and decorating twice gives
    what decorating once gives. *)
Theorem dont_run_with_thread_keeps_skip (current_actor : option Actor)
    (o : TestObject) :
  (skip_test o = true ->
   skip_test (dont_run_with_thread current_actor o) = true)
  /\ dont_run_with_thread current_actor
       (dont_run_with_thread current_actor o)
     = dont_run_with_thread current_actor o.
Proof.
  unfold dont_run_with_thread, skipUnless.
  destruct current_actor as [actor|]; [|split; [auto|reflexivity]].
  destruct (String.eqb _ _); cbn; split; try reflexivity; auto.
  unfold unittest_skip; cbn. destruct (is_class o); reflexivity.
Qed.

Lemma dont_run_with_thread_keeps_skip_witness :
  skip_test
    (dont_run_with_thread
       (Some (mkActor (Examples.redis_cfg None "process")))
       (unittest_skip "not today" Examples.plain_test)) = true.
Proof.
  apply (dont_run_with_thread_keeps_skip
           (Some (mkActor (Examples.redis_cfg None "process")))
           (unittest_skip "not today" Examples.plain_test)).
  reflexivity.
Defined.

(** ** More on the reachability probe *)

Section CheckServerMore.
Context {Store : Type}.
Implicit Types (env : Env Store) (log : list (event Store)).


(** X5: the only exceptions that leave [check_server] are the
    [AttributeError] of a missing actor context, an exception of the
    store factory that is not an [ImproperlyConfigured], and an
    exception of the liveness request that is not an [Exception]; in
    particular no exception that leaves it is an instance of
    [ImproperlyConfigured], whichever collaborator raised it. *)
Theorem check_server_escapes env (name : string) log (e : exc)
    (Hraised : fst (check_server env name log) = Raised e) :
  ((get_actor env = None /\ exc_type e = AttributeError)
   \/ (exists a,
         create_store env a = Raised e
         /\ isinstance e ImproperlyConfigured = false)
   \/ (exists a sync_store,
         create_store env a = Returned sync_store
         /\ run_ping env sync_store = Raised e
         /\ isinstance e Exception = false))
  /\ isinstance e ImproperlyConfigured = false.
Proof.
  assert (Hcases :
    (get_actor env = None /\ exc_type e = AttributeError)
    \/ (exists a,
          create_store env a = Raised e
          /\ isinstance e ImproperlyConfigured = false)
    \/ (exists a sync_store,
          create_store env a = Returned sync_store
          /\ run_ping env sync_store = Raised e
          /\ isinstance e Exception = false)).
  { destruct (get_actor env) as [actor|] eqn:Ha.
    2:{ left. destruct (check_server_no_actor env name log Ha)
          as (e' & Hr & Hty).
        rewrite Hr in Hraised. injection Hraised as <-. auto. }
    destruct (cfg_get (actor_cfg actor) (name ++ "_server")) as [addr|] eqn:Hc.
    2:{ rewrite (check_server_unset _ _ _ _ Ha) in Hraised; [discriminate|].
        rewrite Hc. reflexivity. }
    destruct (truthy_str addr) eqn:Ht.
    2:{ rewrite (check_server_unset _ _ _ _ Ha) in Hraised; [discriminate|].
        rewrite Hc. exact Ht. }
    destruct (create_store env (with_scheme name addr)) as [s|e'] eqn:Hs.
    - rewrite (check_server_connected _ _ _ _ _ _ Ha Hc Ht Hs) in Hraised.
      cbn in Hraised. right. right. exists (with_scheme name addr), s.
      destruct (run_ping env s) as [[]|e'']; [discriminate|].
      destruct (isinstance e'' Exception) eqn:Hx; [discriminate|].
      injection Hraised as <-. auto.
    - rewrite (check_server_refused _ _ _ _ _ _ Ha Hc Ht Hs) in Hraised.
      cbn in Hraised. right. left. exists (with_scheme name addr).
      destruct (isinstance e' ImproperlyConfigured) eqn:Hx; [discriminate|].
      injection Hraised as <-. auto. }
  split; [exact Hcases|].
  destruct Hcases as [(_ & Hty)|[(a & _ & Hn)|(a & s & _ & _ & Hn)]].
  - unfold isinstance. rewrite Hty. reflexivity.
  - exact Hn.
  - destruct (isinstance e ImproperlyConfigured) eqn:Hic; [|reflexivity].
    unfold isinstance in *.
    rewrite (issubclass_trans _ ImproperlyConfigured Exception Hic eq_refl)
      in Hn.
    discriminate.
Qed.

(** X6: adding the scheme is idempotent, and the address handed to the
    store factory always mentions ["<name>://"]. *)
Theorem with_scheme_idempotent (name addr : string) :
  str_in (name ++ "://") (with_scheme name addr) = true
  /\ with_scheme name (with_scheme name addr) = with_scheme name addr.
Proof.
  assert (H : str_in (name ++ "://") (with_scheme name addr) = true).
  { unfold with_scheme.
    destruct (str_in (name ++ "://") addr) eqn:Hin; cbn [negb]; [exact Hin|].
    rewrite <- append_assoc. apply prefix_str_in, prefix_app. }
  split; [exact H|]. apply with_scheme_present. exact H.
Qed.

(** X7: [check_server] leaves an address as it is exactly when
    ["<name>://"] occurs in it, that is when the address can be cut
    into a part before the scheme, the scheme, and a part after it. *)
Theorem with_scheme_unchanged_iff (name addr : string) :
  with_scheme name addr = addr
  <-> exists pre post, addr = pre ++ (name ++ "://") ++ post.
Proof.
  rewrite <- str_in_split. split.
  - intros Hsame. destruct (str_in (name ++ "://") addr) eqn:Hin;
      [reflexivity|].
    rewrite (with_scheme_absent _ _ Hin) in Hsame.
    apply (f_equal String.length) in Hsame.
    rewrite !length_append in Hsame. cbn in Hsame. lia.
  - apply with_scheme_present.
Qed.

End CheckServerMore.


Lemma check_server_escapes_witness :
  isinstance (mkExc ValueError "invalid port in redis://127.0.0.1:x")
    ImproperlyConfigured = false.
Proof.
  apply (check_server_escapes
           (Examples.env_of (Some "127.0.0.1:x") Examples.broken_factory
              Examples.ping_ok) "redis" []).
  vm_compute; reflexivity.
Defined.

(** ** More on the actor lifecycle mixin *)

Section MixinMore.
Context `{RT : ActorRuntime}.
Implicit Types (self : TestInstance) (p : ActorProxy).

Lemma send_stop_app (l1 l2 : list ActorProxy) :
  send_stop (l1 ++ l2)%list
  = match send_stop l1 with
    | Raised e => Raised e
    | Returned r1 =>
        match send_stop l2 with
        | Raised e => Raised e
        | Returned r2 => Returned (r1 ++ r2)%list
        end
    end.
Proof.
  induction l1 as [|a l1 IH]; cbn [send_stop app].
  - destruct (send_stop l2); reflexivity.
  - destruct (send a "stop") as [r|e]; [|reflexivity].
    rewrite IH. destruct (send_stop l1) as [r1|e]; [|reflexivity].
    destruct (send_stop l2); reflexivity.
Qed.

Lemma tearDown_run self :
  fst (tearDown self)
  = match send_stop (tracked self) with
    | Returned requests => Returned (multi_async requests)
    | Raised e => Raised e
    end.
Proof.
  unfold tearDown, stop_actors, mbind, M_bind, all_spawned, lift, tracked.
  destruct (_spawned self) as [l|]; cbn; [|reflexivity].
  destruct (send_stop l); reflexivity.
Qed.

(** X8: the [all_spawned] property creates the list on first use and
    only then: it returns the tracked list, afterwards the attribute
    exists and holds that list, a second access changes nothing, and an
    instance that already has the attribute is left as it is. *)
Theorem all_spawned_lazy self :
  fst (all_spawned self) = Returned (tracked self)
  /\ _spawned (snd (all_spawned self)) = Some (tracked self)
  /\ all_spawned (snd (all_spawned self))
     = (Returned (tracked self), snd (all_spawned self))
  /\ (is_Some (_spawned self) -> snd (all_spawned self) = self).
Proof.
  unfold all_spawned, tracked.
  destruct (_spawned self) as [l|] eqn:Hl; cbn; rewrite ?Hl.
  - repeat split; reflexivity.
  - repeat split; try reflexivity. intros [x Hx]. discriminate Hx.
Qed.

(** X9: a [spawn_actor] that does not get to the resolved proxy leaves
    the instance untouched: an exception of [pulsar.spawn] or of the
    wait on the future is passed on as it is, and a request without
    identifier or that is not a [Future] fails the test. *)
Theorem spawn_actor_early_failure (c : option string)
    (kw : list (string * string)) self :
  (forall e,
     spawn (py_or c (concurrency self)) kw = Raised e ->
     spawn_actor c kw self = (Raised e, self))
  /\ (forall ad,
        spawn (py_or c (concurrency self)) kw = Returned ad ->
        truthy_str (ad_aid ad) && ad_is_Future ad = false ->
        exists msg,
          spawn_actor c kw self
            = (Raised (mkExc (failureException (self_case self)) msg), self))
  /\ (forall ad e,
        spawn (py_or c (concurrency self)) kw = Returned ad ->
        truthy_str (ad_aid ad) = true ->
        ad_is_Future ad = true ->
        ad_result ad = Raised e ->
        spawn_actor c kw self = (Raised e, self)).
Proof.
  unfold spawn_actor, mbind, M_bind, get, lift. repeat split.
  - intros e Hs. rewrite Hs. reflexivity.
  - intros ad Hs Hpre. rewrite Hs.
    destruct (truthy_str (ad_aid ad)); cbn [assertTrue mret M_ret];
      [|unfold fail; eauto].
    destruct (ad_is_Future ad); [discriminate Hpre|].
    unfold assertIsInstance, fail. eauto.
  - intros ad e Hs Ha Hf Hr. rewrite Hs, Ha. cbn [assertTrue mret M_ret].
    rewrite Hf. cbn [assertIsInstance mret M_ret]. rewrite Hr. reflexivity.
Qed.

(** X10: [spawn_actor] returns a proxy exactly when [pulsar.spawn]
    returned a [Future] with a non-empty identifier that resolved to
    that proxy, and the proxy has the same identifier, equals its own
    [proxy] attribute and has a configuration. *)
Theorem spawn_actor_returns_iff (c : option string)
    (kw : list (string * string)) self p :
  fst (spawn_actor c kw self) = Returned p
  <-> exists ad,
        spawn (py_or c (concurrency self)) kw = Returned ad
        /\ truthy_str (ad_aid ad) = true
        /\ ad_is_Future ad = true
        /\ ad_result ad = Returned p
        /\ aid p = ad_aid ad
        /\ proxy_eqb (proxy p) p = true
        /\ truthy_cfg (cfg p) = true.
Proof.
  split.
  - intros Hrun.
    destruct (spawn_actor_cases c kw self)
      as [(ad & q & Hs & Ha & Hf & Hr)|(_ & e & He)].
    2:{ rewrite Hrun in He. discriminate He. }
    destruct (spawn_actor_resolved c kw self ad q Hs Ha Hf Hr)
      as (_ & Hok & Hraise).
    destruct (String.eqb (aid q) (ad_aid ad) && proxy_eqb (proxy q) q
                && truthy_cfg (cfg q)) eqn:Hchecks.
    2:{ destruct (Hraise eq_refl) as [msg Hm]. rewrite Hrun in Hm.
        discriminate Hm. }
    rewrite (Hok eq_refl) in Hrun. injection Hrun as <-.
    apply andb_prop in Hchecks as [Hchecks Hcfg].
    apply andb_prop in Hchecks as [Heq Hself].
    apply String.eqb_eq in Heq. exists ad. auto 10.
  - intros (ad & Hs & Ha & Hf & Hr & Heq & Hself & Hcfg).
    apply (spawn_actor_resolved c kw self ad p Hs Ha Hf Hr).
    rewrite Hself, Hcfg. apply String.eqb_eq in Heq. rewrite Heq. reflexivity.
Qed.

(** X11: the concurrency passed to [pulsar.spawn] is the argument when
    it is a non-empty string and the instance's [concurrency]
    otherwise: leaving the argument out, passing the empty string and
    passing the instance's own value all run the same, and with a
    non-empty argument the result does not depend on the instance's
    value. *)
Theorem spawn_actor_concurrency (kw : list (string * string)) self :
  spawn_actor None kw self = spawn_actor (Some (concurrency self)) kw self
  /\ spawn_actor (Some "") kw self = spawn_actor None kw self
  /\ forall c other,
       truthy_str c = true ->
       fst (spawn_actor (Some c) kw self)
       = fst (spawn_actor (Some c) kw
                (mkTestInstance (self_case self) other (_spawned self))).
Proof.
  assert (Hown : py_or (Some (concurrency self)) (concurrency self)
                 = concurrency self).
  { unfold py_or. destruct (truthy_str (concurrency self)); reflexivity. }
  split; [|split].
  - unfold spawn_actor, mbind, M_bind, get. cbn zeta. rewrite Hown.
    reflexivity.
  - reflexivity.
  - intros c other Hc.
    unfold spawn_actor, mbind, M_bind, get, lift, py_or. cbn zeta.
    rewrite Hc. cbn [concurrency].
    destruct (spawn c kw) as [ad|e]; [|reflexivity].
    destruct (truthy_str (ad_aid ad)); cbn [assertTrue mret M_ret];
      [|reflexivity].
    destruct (ad_is_Future ad); cbn [assertIsInstance mret M_ret];
      [|reflexivity].
    destruct (ad_result ad) as [p|e]; [|reflexivity].
    unfold all_spawned, spawned_append, tracked, set_spawned.
    cbn [_spawned self_case concurrency].
    destruct (_spawned self); cbn;
      unfold assertEqual, assertTrue, fail, mret, M_ret;
      destruct (String.eqb (aid p) (ad_aid ad)); cbn; try reflexivity;
      destruct (proxy_eqb (proxy p) p); cbn; try reflexivity;
      destruct (truthy_cfg (cfg p)); reflexivity.
Qed.

(** X12: the comprehension in [stop_actors] returns a list of
    requests exactly when every [send] returns: there is then one
    request per handle, in the order of the handles, each being what
    [send(a, 'stop')] gave for its handle. *)
Theorem send_stop_returns_iff (all : list ActorProxy)
    (requests : list Request) :
  send_stop all = Returned requests
  <-> Forall2 (fun a r => send a "stop" = Returned r) all requests.
Proof.
  revert requests. induction all as [|a all IH]; intros requests; cbn.
  - split.
    + intros [= <-]. constructor.
    + intros H. inversion H. reflexivity.
  - split.
    + destruct (send a "stop") as [r|e] eqn:Hsend; [|discriminate].
      destruct (send_stop all) as [rs|e]; [|discriminate].
      intros [= <-]. constructor; [exact Hsend|]. apply IH. reflexivity.
    + intros H. inversion H as [|a' r all' rs Hsend Hrest]; subst.
      rewrite Hsend. apply IH in Hrest. rewrite Hrest. reflexivity.
Qed.

(** X13: the comprehension raises an exception exactly when some
    [send] raises, and the exception is then that of the first handle,
    in the order of the list, whose [send] raises: every handle before
    it has a [send] that returns. *)
Theorem send_stop_raises_iff (all : list ActorProxy) (e : exc) :
  send_stop all = Raised e
  <-> exists before a after,
        all = (before ++ a :: after)%list
        /\ Forall (fun b => exists r, send b "stop" = Returned r) before
        /\ send a "stop" = Raised e.
Proof.
  split.
  - induction all as [|a all IH]; cbn; [discriminate|].
    destruct (send a "stop") as [r|e'] eqn:Hsend.
    + destruct (send_stop all) as [rs|e'] eqn:Hrest; [discriminate|].
      intros [= ->].
      destruct (IH eq_refl) as (before & b & after & -> & Hbefore & Hb).
      exists (a :: before), b, after.
      split; [reflexivity|]. split; [|exact Hb].
      constructor; [eauto|exact Hbefore].
    + intros [= ->]. exists [], a, all.
      split; [reflexivity|]. split; [constructor|exact Hsend].
  - intros (before & a & after & -> & Hbefore & Ha).
    induction Hbefore as [|b before [r Hb] _ IH]; cbn.
    + rewrite Ha. reflexivity.
    + rewrite Hb, IH. reflexivity.
Qed.

(** X14: [stop_actors] without arguments on an instance that tracks
    nothing sends nothing and returns the empty combined request,
    whatever [send] would do; with explicit handles it neither reads
    nor creates the tracked list: the instance is left exactly as it
    was, and the requests are those for the handles given. *)
Theorem stop_actors_edge_cases self :
  (tracked self = [] ->
   fst (stop_actors [] self) = Returned (multi_async []))
  /\ forall a rest,
       stop_actors (a :: rest) self
       = (match send_stop (a :: rest) with
          | Returned requests => Returned (multi_async requests)
          | Raised e => Raised e
          end, self).
Proof.
  split.
  - intros Hnone. change (stop_actors [] self) with (tearDown self).
    rewrite tearDown_run, Hnone. reflexivity.
  - intros a rest. unfold stop_actors, mbind, M_bind, lift.
    cbn [mret M_ret].
    destruct (send_stop (a :: rest)); reflexivity.
Qed.

(** X15: whatever the three assertions on the resolved proxy say, a
    [tearDown] after [spawn_actor] sends ['stop'] to the handles
    tracked before and then to the new proxy; when all sends return,
    the last request is the one for the new proxy. *)
Theorem tearDown_stops_spawned (c : option string)
    (kw : list (string * string)) self (ad : SpawnFuture ActorProxy) p
    (Hspawn : spawn (py_or c (concurrency self)) kw = Returned ad)
    (Haid : truthy_str (ad_aid ad) = true)
    (Hfuture : ad_is_Future ad = true)
    (Hresolved : ad_result ad = Returned p) :
  fst (tearDown (snd (spawn_actor c kw self)))
    = match send_stop (tracked self ++ [p])%list with
      | Returned requests => Returned (multi_async requests)
      | Raised e => Raised e
      end
  /\ forall requests,
       fst (tearDown (snd (spawn_actor c kw self)))
         = Returned (multi_async requests) ->
       exists r, send p "stop" = Returned r /\ last requests = Some r.
Proof.
  destruct (spawn_actor_resolved c kw self ad p Hspawn Haid Hfuture Hresolved)
    as (Hst & _).
  rewrite tearDown_run, Hst, tracked_set_spawned.
  split; [reflexivity|].
  intros requests. rewrite send_stop_app.
  destruct (send_stop (tracked self)) as [r1|e]; [|discriminate].
  cbn [send_stop]. destruct (send p "stop") as [r|e]; [|discriminate].
  intros [= <-]. exists r. split; [reflexivity|]. apply last_snoc.
Qed.

End MixinMore.

Lemma tearDown_stops_spawned_witness :
  fst (tearDown
         (snd (spawn_actor
                 (RT := Examples.simple_runtime Examples.spawn_without_cfg)
                 None [] Examples.new_instance)))
  = Returned
      (multi_async (RT := Examples.simple_runtime Examples.spawn_without_cfg)
         [("a1b2c3", "stop")]).
Proof.
  exact (proj1 (tearDown_stops_spawned
                  (RT := Examples.simple_runtime Examples.spawn_without_cfg)
                  None [] Examples.new_instance Examples.spawn_without_cfg
                  Examples.proxy_without_cfg
                  eq_refl eq_refl eq_refl eq_refl)).
Defined.

Lemma spawn_actor_early_failure_witness :
  exists msg,
    spawn_actor
      (RT := Examples.simple_runtime
               (mkSpawnFuture "" true (Returned Examples.good_proxy)))
      None [] Examples.new_instance
    = (Raised (mkExc AssertionError msg), Examples.new_instance).
Proof.
  destruct (spawn_actor_early_failure
              (RT := Examples.simple_runtime
                       (mkSpawnFuture "" true (Returned Examples.good_proxy)))
              None [] Examples.new_instance) as (_ & Hpre & _).
  exact (Hpre _ eq_refl eq_refl).
Defined.

Lemma stop_actors_edge_cases_witness :
  fst (stop_actors (RT := Examples.simple_runtime Examples.good_spawn)
         [] Examples.new_instance)
  = Returned (multi_async [])
  /\ snd (stop_actors (RT := Examples.simple_runtime Examples.good_spawn)
            [Examples.good_proxy] Examples.new_instance)
     = Examples.new_instance.
Proof.
  destruct (stop_actors_edge_cases
              (RT := Examples.simple_runtime Examples.good_spawn)
              Examples.new_instance) as (Hnone & Hargs).
  split; [exact (Hnone eq_refl)|].
  exact (f_equal snd (Hargs Examples.good_proxy [])).
Defined.

(** ** More on the assertion proxy *)

(** X16: widening the expected class keeps a passing [assertRaises]
    passing: what is accepted when [error] is expected is accepted when
    a base class of [error] is expected. *)
Theorem assertRaises_wider_class (self : AsyncAssert) (error wider : pyclass)
    (c : Callable)
    (Hbase : issubclass error wider = true)
    (Hpass : assertRaises self error c = Returned tt) :
  assertRaises self wider c = Returned tt.
Proof.
  unfold assertRaises in *.
  destruct (call_and_yield_from c) as [[]|e]; [discriminate Hpass|].
  destruct (isinstance e error) eqn:He.
  - unfold isinstance in *.
    rewrite (issubclass_trans _ _ _ He Hbase). reflexivity.
  - destruct (isinstance e Exception); discriminate Hpass.
Qed.

Lemma assertRaises_wider_class_witness :
  assertRaises (mkAsyncAssert Examples.a_case) OSError
    (Examples.raises ConnectionRefusedError) = Returned tt.
Proof.
  apply (assertRaises_wider_class (mkAsyncAssert Examples.a_case)
           ConnectionError OSError (Examples.raises ConnectionRefusedError));
    vm_compute; reflexivity.
Defined.

(** X17: [assertRaises] never passes an unexpected [Exception] of the
    callable on: when it raises, the exception is either its own
    failure with the "not raised" message, or the very exception the
    run of the callable raised, and then that one is neither an
    instance of [Exception] nor of the expected class. *)
Theorem assertRaises_raises_only (self : AsyncAssert) (error : pyclass)
    (c : Callable) (e : exc)
    (Hraised : assertRaises self error c = Raised e) :
  e = mkExc (failureException (test self)) (not_raised_msg error c)
  \/ (call_and_yield_from c = Raised e
      /\ isinstance e Exception = false
      /\ isinstance e error = false).
Proof.
  unfold assertRaises in Hraised.
  destruct (call_and_yield_from c) as [[]|e'] eqn:Hrun.
  - injection Hraised as <-. left. reflexivity.
  - destruct (isinstance e' error) eqn:He; [discriminate Hraised|].
    destruct (isinstance e' Exception) eqn:Hx; injection Hraised as <-.
    + left. reflexivity.
    + right. auto.
Qed.

Lemma assertRaises_raises_only_witness :
  mkExc GeneratorExit "boom"
    = mkExc AssertionError
        (not_raised_msg ValueError (Examples.raises GeneratorExit))
  \/ (call_and_yield_from (Examples.raises GeneratorExit)
        = Raised (mkExc GeneratorExit "boom")
      /\ isinstance (mkExc GeneratorExit "boom") Exception = false
      /\ isinstance (mkExc GeneratorExit "boom") ValueError = false).
Proof.
  exact (assertRaises_raises_only (mkAsyncAssert Examples.a_case) ValueError
           (Examples.raises GeneratorExit) (mkExc GeneratorExit "boom")
           eq_refl).
Defined.

(** ** More on the stored models *)

Lemma append_empty_r (s : string) : s ++ "" = s.
Proof.
  induction s as [|a s IH]; [reflexivity|].
  change (String a s ++ "") with (String a (s ++ "")).
  rewrite IH. reflexivity.
Qed.

Lemma substring_0_length (n : nat) (s : string) :
  String.length (String.substring 0 n s) = Nat.min n (String.length s).
Proof.
  revert s. induction n as [|n IH]; intros [|a s]; cbn; try reflexivity.
  rewrite IH. reflexivity.
Qed.

Lemma substring_0_prefix (n : nat) (s : string) :
  String.prefix (String.substring 0 n s) s = true.
Proof.
  revert s. induction n as [|n IH]; intros [|a s]; cbn; try reflexivity.
  destruct (Ascii.ascii_dec a a); [apply IH|contradiction].
Qed.

Lemma substring_0_all (n : nat) (s : string) :
  (String.length s <= n)%nat -> String.substring 0 n s = s.
Proof.
  revert s. induction n as [|n IH]; intros [|a s]; cbn; try reflexivity.
  - lia.
  - intros Hlen. rewrite IH by lia. reflexivity.
Qed.

(** X18: [short_id] is the identifier cut at eight characters: it has
    the length of the identifier when that is at most eight and eight
    otherwise, it is a prefix of the identifier, it is the identifier
    itself when that is short enough, and it is what [__unicode__]
    shows between the parentheses. *)
Theorem short_id_cut (t : Task) :
  String.length (short_id t) = Nat.min 8 (String.length (id t))
  /\ String.prefix (short_id t) (id t) = true
  /\ ((String.length (id t) <= 8)%nat -> short_id t = id t)
  /\ Task_unicode t = name t ++ "(" ++ short_id t ++ ")".
Proof.
  unfold short_id, Task_unicode.
  split; [apply substring_0_length|].
  split; [apply substring_0_prefix|].
  split; [apply substring_0_all|reflexivity].
Qed.

(** X19: [path] leaves the port out when it is 0, and otherwise tells
    servers apart by their port: two servers with the same schema and
    host have the same path only when their ports are equal. *)
Theorem path_tells_ports_apart (s1 s2 : PulsarServer) :
  (port s1 = 0%Z -> path s1 = schema s1 ++ host s1)
  /\ (schema s1 = schema s2 -> host s1 = host s2 ->
      path s1 = path s2 -> port s1 = port s2).
Proof.
  unfold path. split.
  - intros ->. rewrite bool_decide_eq_false_2 by lia.
    rewrite append_empty_r. reflexivity.
  - intros -> -> Hpath.
    apply (inj (String.app (schema s2))) in Hpath.
    apply (inj (String.app (host s2))) in Hpath.
    destruct (bool_decide_reflect (port s1 <> 0%Z)) as [H1|H1];
      destruct (bool_decide_reflect (port s2 <> 0%Z)) as [H2|H2].
    + injection Hpath as Hp. exact (pretty_Z_inj _ _ Hp).
    + discriminate Hpath.
    + discriminate Hpath.
    + lia.
Qed.

Lemma path_tells_ports_apart_witness :
  path (mkPulsarServer "a" "node1" 0 "" "" "http://") = "http://node1"
  /\ (path (mkPulsarServer "a" "node1" 8060 "" "" "http://")
        = path (mkPulsarServer "b" "node1" 8060 "n" "x" "http://") ->
      8060%Z = 8060%Z).
Proof.
  destruct (path_tells_ports_apart
              (mkPulsarServer "a" "node1" 0 "" "" "http://")
              (mkPulsarServer "a" "node1" 0 "" "" "http://")) as (Hzero & _).
  split; [exact (Hzero eq_refl)|].
  apply (path_tells_ports_apart
           (mkPulsarServer "a" "node1" 8060 "" "" "http://")
           (mkPulsarServer "b" "node1" 8060 "n" "x" "http://"));
    reflexivity.
Defined.

Section GetTaskMore.
Variable done : Task -> bool.
Implicit Types (db : gmap string TaskRow) (row : TaskRow).

Lemma get_task_run db (id_ : string) (remove : bool) :
  get_task done id_ remove db
  = match db !! id_ with
    | None => (Returned None, db)
    | Some row =>
        if remove && done (mkTask id_ (row_name row) (row_status row))
        then (Returned None, delete id_ db)
        else (Returned (Some (mkTask id_ (row_name row) (row_status row))),
              db)
    end.
Proof.
  unfold get_task, objects_get, delete_task, mbind, M_bind, mret, M_ret.
  destruct (db !! id_) as [row|]; [|reflexivity].
  cbn. destruct (remove && done _); reflexivity.
Qed.

(** X20: [get_task] touches no other task: every other identifier
    reads as before, the store never gains an entry, without [remove]
    it is left as it was, and a task that is returned carries the
    identifier asked for and the stored fields, and is still stored. *)
Theorem get_task_frame db (id_ : string) (remove : bool) :
  (forall other, other <> id_ ->
     snd (get_task done id_ remove db) !! other = db !! other)
  /\ snd (get_task done id_ remove db) ⊆ db
  /\ (remove = false -> snd (get_task done id_ remove db) = db)
  /\ (forall t,
        fst (get_task done id_ remove db) = Returned (Some t) ->
        id t = id_
        /\ db !! id_ = Some (mkTaskRow (name t) (status t))
        /\ snd (get_task done id_ remove db) = db).
Proof.
  rewrite get_task_run.
  destruct (db !! id_) as [row|] eqn:Hrow.
  2:{ split; [reflexivity|]. split; [reflexivity|]. split; [reflexivity|].
      intros t Ht. discriminate Ht. }
  destruct (remove && done _) eqn:Hrm; cbn [fst snd].
  - split; [intros other Hne; apply lookup_delete_ne; congruence|].
    split; [apply delete_subseteq|].
    split; [intros ->; discriminate Hrm|].
    intros t Ht. discriminate Ht.
  - split; [reflexivity|]. split; [reflexivity|]. split; [reflexivity|].
    intros t [= <-]. destruct row. repeat split; reflexivity.
Qed.

(** X21: once [get_task] has removed a done task, the task is gone:
    the identifier is no longer stored, and any later [get_task] for it
    returns [None] and changes nothing. *)
Theorem get_task_after_removal db (id_ : string) row (again : bool)
    (Hstored : db !! id_ = Some row)
    (Hdone : done (mkTask id_ (row_name row) (row_status row)) = true) :
  snd (get_task done id_ true db) !! id_ = None
  /\ get_task done id_ again (snd (get_task done id_ true db))
     = (Returned None, snd (get_task done id_ true db)).
Proof.
  assert (Hgone : snd (get_task done id_ true db) !! id_ = None).
  { rewrite get_task_run, Hstored. cbn. rewrite Hdone. cbn.
    apply lookup_delete_eq. }
  split; [exact Hgone|].
  rewrite (get_task_run (snd (get_task done id_ true db))), Hgone.
  reflexivity.
Qed.

End GetTaskMore.

Lemma get_task_after_removal_witness :
  snd (get_task Examples.done_by_status "t1" true Examples.two_tasks)
    !! "t1" = None
  /\ get_task Examples.done_by_status "t1" false
       (snd (get_task Examples.done_by_status "t1" true Examples.two_tasks))
     = (Returned None,
        snd (get_task Examples.done_by_status "t1" true Examples.two_tasks)).
Proof.
  apply (get_task_after_removal Examples.done_by_status Examples.two_tasks
           "t1" (mkTaskRow "addition" "SUCCESS") false);
    vm_compute; reflexivity.
Defined.

Lemma get_task_frame_witness :
  snd (get_task Examples.done_by_status "t1" true Examples.two_tasks) !! "t2"
    = Some (mkTaskRow "addition" "STARTED")
  /\ snd (get_task Examples.done_by_status "t1" false Examples.two_tasks)
     = Examples.two_tasks.
Proof.
  destruct (get_task_frame Examples.done_by_status Examples.two_tasks
              "t1" true) as (Hother & _).
  destruct (get_task_frame Examples.done_by_status Examples.two_tasks
              "t1" false) as (_ & _ & Hkeep & _).
  split; [|exact (Hkeep eq_refl)].
  rewrite (Hother "t2") by discriminate. vm_compute; reflexivity.
Defined.

Lemma short_id_cut_witness :
  short_id (mkTask "4f2a" "addition" "SUCCESS") = "4f2a"
  /\ String.length (short_id (mkTask "4f2a90c1d7e3" "addition" "SUCCESS"))
     = 8%nat.
Proof.
  destruct (short_id_cut (mkTask "4f2a" "addition" "SUCCESS"))
    as (_ & _ & Hshort & _).
  destruct (short_id_cut (mkTask "4f2a90c1d7e3" "addition" "SUCCESS"))
    as (Hlen & _).
  split; [apply Hshort; cbn; lia|exact Hlen].
Defined.

Lemma all_spawned_lazy_witness :
  snd (all_spawned (RT := Examples.simple_runtime Examples.good_spawn)
         (set_spawned (RT := Examples.simple_runtime Examples.good_spawn)
            [Examples.good_proxy] Examples.new_instance))
  = set_spawned (RT := Examples.simple_runtime Examples.good_spawn)
      [Examples.good_proxy] Examples.new_instance.
Proof.
  apply (all_spawned_lazy (RT := Examples.simple_runtime Examples.good_spawn)).
  eexists. reflexivity.
Defined.

Lemma spawn_actor_concurrency_witness :
  fst (spawn_actor (RT := Examples.simple_runtime Examples.good_spawn)
         (Some "process") [] Examples.new_instance)
  = fst (spawn_actor (RT := Examples.simple_runtime Examples.good_spawn)
           (Some "process") []
           (mkTestInstance (mkTestCase "ActorTest" AssertionError)
              "coroutine" None)).
Proof.
  destruct (spawn_actor_concurrency
              (RT := Examples.simple_runtime Examples.good_spawn)
              [] Examples.new_instance) as (_ & _ & Hexplicit).
  exact (Hexplicit "process" "coroutine" eq_refl).
Defined.
